(** * AtlasInContext: the dashboard client [frontend/src/main.js]

    A shallow embedding of the data-loading routines and of the numeric
    helpers of the dashboard, with the properties its specification states
    about them.

    Conventions of the embedding.
    - A JSON number is a rational [Q]: the literals of a JSON document denote
      rationals, and the arithmetic of the client (sums, a division by a
      constant or by a count) is carried out exactly.  The rounding of
      binary64 and signed zeros are outside the model.  The result of a
      division is a [number], which adds [NaN] and the two infinities, as
      [x / 0] produces them.
    - A JavaScript object read from JSON is a finite map from property names
      to values ([gmap string _]).
    - The asynchronous loaders run in a monad over a [world]: the mutable
      [state] object of the client together with the trace of the requests,
      decompressions and JSON parses performed so far; [await] is the
      monad's bind and [throw] its error.  Console output is not modelled.
    - The views ([getVisualizationValue], [updateStats],
      [updateGlobalPulse]) read documents that follow the schema of the
      data pipeline; these are records, and the fields of [state] a view
      reads are its arguments.  The page is the map of its elements by id.
    - The host functions whose results depend on the browser or on the
      server ([fetch], [DecompressionStream], [JSON.parse],
      [toLocaleString], [toFixed], [toLocaleTimeString]) are variables of
      the section [Client]. *)

From Stdlib Require Import QArith Lqa Qminmax.
From Stdlib Require Import Strings.Byte.
From stdpp Require Import gmap strings list pretty.
From Equations Require Import Equations.

Set Warnings "-register-all".
Set Default Proof Using "Type".

(* ====================================================================== *)
(** * JavaScript numbers                                                    *)
(* ====================================================================== *)

Module Num.

(** The values of the type Number that the client can compute. *)
Inductive number :=
  | NaN
  | PosInf
  | NegInf
  | Fin (q : Q).

Definition Qltb (x y : Q) : bool :=
  match (x ?= y)%Q with Lt => true | _ => false end.

(** [a < b] of JavaScript: false as soon as one side is [NaN]. *)
Definition js_lt (a b : number) : bool :=
  match a, b with
  | NaN, _ | _, NaN => false
  | Fin x, Fin y => Qltb x y
  | NegInf, NegInf => false
  | NegInf, _ => true
  | _, NegInf => false
  | PosInf, _ => false
  | Fin _, PosInf => true
  end.

(** [a > b] is [b < a]. *)
Definition js_gt (a b : number) : bool := js_lt b a.

(** [x / y] on two finite operands. *)
Definition js_div (x y : Q) : number :=
  if Qeq_bool y 0 then
    if Qeq_bool x 0 then NaN
    else if Qltb 0 x then PosInf else NegInf
  else Fin (x / y).

(** [Math.min(a, b)]. *)
Definition Math_min (a b : number) : number :=
  match a, b with
  | NaN, _ | _, NaN => NaN
  | NegInf, _ | _, NegInf => NegInf
  | PosInf, n | n, PosInf => n
  | Fin x, Fin y => Fin (Qmin x y)
  end.

(** [field || 0] on an optional numeric field: a missing field and the
    number zero are falsy. *)
Definition or_zero (field : option Q) : Q :=
  match field with
  | Some q => if Qeq_bool q 0 then 0 else q
  | None => 0
  end.

End Num.
Export Num.

(* ====================================================================== *)
(** * Utility functions: the vibe colour scale                              *)
(* ====================================================================== *)

Definition getVibeColor (vibe : number) : string :=
  if js_lt vibe (Fin (-0.5)) then "#ef4444"
  else if js_lt vibe (Fin 0.0) then "#f97316"
  else if js_lt vibe (Fin 0.3) then "#eab308"
  else if js_lt vibe (Fin 0.6) then "#84cc16"
  else "#22c55e".

Definition getVibeLabel (vibe : number) : string :=
  if js_lt vibe (Fin (-0.5)) then "Crisis"
  else if js_lt vibe (Fin 0.0) then "Tense"
  else if js_lt vibe (Fin 0.3) then "Neutral"
  else if js_lt vibe (Fin 0.6) then "Stable"
  else "Thriving".

(* ====================================================================== *)
(** * The documents the views read                                          *)
(* ====================================================================== *)

(** One entry of [vibe_scores.json]'s [cells], with the fields the client
    reads.  The three counters are optional: the client reads them through
    [|| 0]. *)
Record cell := {
  vibe : Q;
  p_int : Q;
  n_int : Q;
  count : option Q;
  noise_count : option Q;
  progress_count : option Q
}.

Record vibe_scores := {
  cells : gmap string cell;
  generated_at : option string
}.

(** The [pulse] of [vibe_scores.json], as [state.pulse] holds it. *)
Record global_pulse := {
  progress_signal : Q;
  noise_signal : Q;
  humanity_ratio : Q
}.

(** [Object.keys] and [Object.values] enumerate an object in one and the
    same order. *)
Definition Object_keys {A} (o : gmap string A) : list string :=
  (map_to_list o).*1.

Definition Object_values {A} (o : gmap string A) : list A :=
  (map_to_list o).*2.

(* ====================================================================== *)
(** * Visualization mode logic                                              *)
(* ====================================================================== *)

(** [state.vibeScores] and [state.currentViewMode] are the two fields of
    [state] the function reads. *)
Definition getVisualizationValue
    (vibeScores : vibe_scores) (currentViewMode : string)
    (h3Index : string) : number :=
  match cells vibeScores !! h3Index with
  | None => Fin 0
  | Some cellData =>
      if String.eqb currentViewMode "progress" then
        Math_min (Fin 1) (js_div (p_int cellData) 10)
      else if String.eqb currentViewMode "noise" then
        Math_min (Fin 1) (js_div (n_int cellData) 10)
      else
        js_div (vibe cellData + 1) 2
  end.

(* ====================================================================== *)
(** * The page                                                              *)
(* ====================================================================== *)

(** The part of a DOM element the updates write. *)
Record element := {
  textContent : string;
  className : string
}.

(** The document: the elements by id. *)
Definition dom := gmap string element.

Definition getElementById (id : string) (d : dom) : option element :=
  d !! id.

(** [const el = document.getElementById(id); if (el) el.textContent = text] *)
Definition set_textContent (id : string) (text : string) (d : dom) : dom :=
  match getElementById id d with
  | Some el => <[id := {| textContent := text; className := className el |}]> d
  | None => d
  end.

(** [if (el) el.className = cls] *)
Definition set_className (id : string) (cls : string) (d : dom) : dom :=
  match getElementById id d with
  | Some el => <[id := {| textContent := textContent el; className := cls |}]> d
  | None => d
  end.

(* ====================================================================== *)
(** * JavaScript values                                                     *)
(* ====================================================================== *)

(** What [JSON.parse] returns, and [undefined], which reading a property
    adds. *)
Inductive value :=
  | VUndefined
  | VNull
  | VBool (b : bool)
  | VNum (q : Q)
  | VStr (s : string)
  | VArr (elements : list value)
  | VObj (properties : gmap string value).

(** ToBoolean. *)
Definition truthy (v : value) : bool :=
  match v with
  | VUndefined | VNull => false
  | VBool b => b
  | VNum q => negb (Qeq_bool q 0)
  | VStr s => negb (String.eqb s "")
  | VArr _ | VObj _ => true
  end.

(** [a || b] *)
Definition js_or (a b : value) : value := if truthy a then a else b.

(** What a [throw] carries.  [TypeError] and [SyntaxError] are the errors
    the runtime raises (a property of [undefined] or [null], a call of
    something that is no function, a rejected [fetch], a failed
    decompression; text that is no JSON); [Error] is [new Error(message)]. *)
Inductive exn :=
  | Error (message : string)
  | TypeError
  | SyntaxError.

Inductive outcome (A : Type) :=
  | Return (a : A)
  | Throw (e : exn).
Arguments Return {A} a.
Arguments Throw {A} e.

(** [v.name] for the property names of the source: none of them is an array
    index or a member of a prototype.  A string's [length] counts the
    characters of the model's strings. *)
Definition js_get (v : value) (name : string) : outcome value :=
  match v with
  | VUndefined | VNull => Throw TypeError
  | VObj properties => Return (default VUndefined (properties !! name))
  | VArr elements =>
      Return (if String.eqb name "length"
              then VNum (inject_Z (Z.of_nat (length elements)))
              else VUndefined)
  | VStr s =>
      Return (if String.eqb name "length"
              then VNum (inject_Z (Z.of_nat (String.length s)))
              else VUndefined)
  | VBool _ | VNum _ => Return VUndefined
  end.

Fixpoint chars (s : string) : list value :=
  match s with
  | EmptyString => []
  | String c s' => VStr (String c EmptyString) :: chars s'
  end.

Definition indexed (l : list value) : gmap string value :=
  list_to_map (imap (fun i x => (pretty i, x)) l).

(** The own enumerable properties [{...v}] copies: those of an object, the
    indices of an array or of a string, none of another value. *)
Definition spread (v : value) : gmap string value :=
  match v with
  | VObj properties => properties
  | VArr elements => indexed elements
  | VStr s => indexed (chars s)
  | VUndefined | VNull | VBool _ | VNum _ => ∅
  end.

Fixpoint mapM {A B} (f : A -> outcome B) (l : list A) : outcome (list B) :=
  match l with
  | [] => Return []
  | x :: l' =>
      match f x with
      | Throw e => Throw e
      | Return y =>
          match mapM f l' with
          | Throw e => Throw e
          | Return ys => Return (y :: ys)
          end
      end
  end.

(** [v.map(f)]: only an array has a [map] to call. *)
Definition Array_map (f : value -> outcome value) (v : value) : outcome value :=
  match v with
  | VArr elements =>
      match mapM f elements with
      | Return elements' => Return (VArr elements')
      | Throw e => Throw e
      end
  | _ => Throw TypeError
  end.

(** [s.replace(/^prefix/, '')] *)
Definition strip_prefix (prefix s : string) : string :=
  if String.prefix prefix s
  then String.substring (String.length prefix)
         (String.length s - String.length prefix) s
  else s.

(* ====================================================================== *)
(** * Responses and streams                                                 *)
(* ====================================================================== *)

(** A [Uint8Array]. *)
Definition chunk := list byte.

(** A response: its [body] is the sequence of chunks its stream delivers
    (none for an empty body).  A response without a body stream, as a 204
    has, is not modelled. *)
Record response := {
  ok : bool;
  status : N;
  body : list chunk
}.

(** The second argument of [fetch]: [{}] or [{cache: mode}]. *)
Record fetch_options := { cache : option string }.

(** A reader holds the chunks of the body that are still to come. *)
Definition reader := list chunk.

Definition getReader (body : list chunk) : reader := body.

(** [reader.read()] gives [{value, done}] ([None] is [done]) and advances
    the reader. *)
Definition read (r : reader) : option chunk * reader :=
  match r with
  | [] => (None, [])
  | value :: r' => (Some value, r')
  end.

(** The controller of a [ReadableStream]: what has been enqueued, oldest
    first, and whether the stream has been closed. *)
Record controller := {
  queue : list chunk;
  closed : bool
}.

Definition enqueue (value : chunk) (c : controller) : controller :=
  {| queue := queue c ++ [value]; closed := closed c |}.

Definition close (c : controller) : controller :=
  {| queue := queue c; closed := true |}.

Definition inspect {A} (a : A) : {b | a = b} := exist _ a eq_refl.

(** The [push] of [combinedStream]: read, close when done, otherwise enqueue
    and go on. *)
Equations? push (r : reader) (c : controller) : controller
  by wf (length r) lt :=
  push r c with inspect (read r) := {
    | exist _ (pair None _) _ => close c
    | exist _ (pair (Some value) r') E => push r' (enqueue value c) }.
Proof. destruct r; simpl in E; inversion E; subst; simpl; lia. Qed.

(** [new ReadableStream({ start(controller) { ... } })] of
    [fetchWithDecompress], with the chunk [value] that was peeked at and the
    reader it came from. *)
Definition combinedStream (value : chunk) (r : reader) : controller :=
  push r (enqueue value {| queue := []; closed := false |}).

(** [value[i] === b] *)
Definition byte_is (v : option byte) (b : byte) : bool :=
  match v with
  | Some x => Byte.eqb x b
  | None => false
  end.

(* ====================================================================== *)
(** * Configuration, state and the loader monad                             *)
(* ====================================================================== *)

Record config := {
  dataBaseUrl : string;
  useGzip : bool
}.

(** The fields of the global [state] the loaders write.  [null] is the
    initial content of the five documents. *)
Record state := {
  metadata : value;
  coreGrid : value;
  vibeScores : value;
  pulse : value;
  insights : value;
  isLoading : bool
}.

(** What a run leaves behind, oldest first. *)
Inductive event :=
  | EFetch (url : string) (options : fetch_options)
  | EDecompress (data : list byte)
  | EJsonParse (text : list byte).

Record world := {
  st : state;
  page : dom;
  trace : list event
}.

Definition M (A : Type) : Type := world -> outcome A * world.

#[export] Instance M_ret : MRet M := fun A a w => (Return a, w).

Definition throw {A} (e : exn) : M A := fun w => (Throw e, w).

(** [await] and sequencing: the continuation runs on the world the first
    step left, unless that step threw. *)
#[export] Instance M_bind : MBind M := fun A B k m w =>
  match m w with
  | (Return a, w') => k a w'
  | (Throw e, w') => (Throw e, w')
  end.

(** [try { m } catch (e) { handler(e) }] *)
Definition try_catch {A} (m : M A) (handler : exn -> M A) : M A :=
  fun w =>
    match m w with
    | (Return a, w') => (Return a, w')
    | (Throw e, w') => handler e w'
    end.

(** A synchronous step that may throw. *)
Definition lift {A} (o : outcome A) : M A := fun w => (o, w).

Definition log (e : event) : M unit :=
  fun w =>
    (Return tt, {| st := st w; page := page w; trace := trace w ++ [e] |}).

Definition modify (f : state -> state) : M unit :=
  fun w => (Return tt, {| st := f (st w); page := page w; trace := trace w |}).

Definition modify_page (f : dom -> dom) : M unit :=
  fun w => (Return tt, {| st := st w; page := f (page w); trace := trace w |}).

Definition get_state : M state := fun w => (Return (st w), w).

Definition set_metadata (v : value) (s : state) : state :=
  {| metadata := v; coreGrid := coreGrid s; vibeScores := vibeScores s;
     pulse := pulse s; insights := insights s; isLoading := isLoading s |}.

Definition set_coreGrid (v : value) (s : state) : state :=
  {| metadata := metadata s; coreGrid := v; vibeScores := vibeScores s;
     pulse := pulse s; insights := insights s; isLoading := isLoading s |}.

Definition set_vibeScores (v : value) (s : state) : state :=
  {| metadata := metadata s; coreGrid := coreGrid s; vibeScores := v;
     pulse := pulse s; insights := insights s; isLoading := isLoading s |}.

Definition set_pulse (v : value) (s : state) : state :=
  {| metadata := metadata s; coreGrid := coreGrid s; vibeScores := vibeScores s;
     pulse := v; insights := insights s; isLoading := isLoading s |}.

Definition set_insights (v : value) (s : state) : state :=
  {| metadata := metadata s; coreGrid := coreGrid s; vibeScores := vibeScores s;
     pulse := pulse s; insights := v; isLoading := isLoading s |}.

Definition set_isLoading (b : bool) (s : state) : state :=
  {| metadata := metadata s; coreGrid := coreGrid s; vibeScores := vibeScores s;
     pulse := pulse s; insights := insights s; isLoading := b |}.

Definition updateLoadingText (text : string) : M unit :=
  modify_page (fun d =>
    set_textContent "loadingSubtext" "" (set_textContent "loadingText" text d)).

(** [{...feature, properties: {...feature.properties, h3_index: feature.id}}],
    the function [loadCoreGrid] maps over the features. *)
Definition decorate (feature : value) : outcome value :=
  match js_get feature "properties" with
  | Throw e => Throw e
  | Return feature_properties =>
      match js_get feature "id" with
      | Throw e => Throw e
      | Return feature_id =>
          Return (VObj (<["properties" :=
                           VObj (<["h3_index" := feature_id]>
                                   (spread feature_properties))]>
                         (spread feature)))
      end
  end.

(** [grid.features = grid.features.map(decorate)].  Only an object has an
    array as its [features], so the assignment is reached with an object. *)
Definition decorate_features (grid : value) : outcome value :=
  match js_get grid "features" with
  | Throw e => Throw e
  | Return features =>
      match Array_map decorate features with
      | Throw e => Throw e
      | Return features' =>
          match grid with
          | VObj properties =>
              Return (VObj (<["features" := features']> properties))
          | _ => Throw TypeError
          end
      end
  end.

(** [gridFile.replace(/^core\//, '').replace(/^current\//, '')]: only a
    string has a [replace] to call. *)
Definition cleanPath_of (gridFile : value) : outcome string :=
  match gridFile with
  | VStr s => Return (strip_prefix "current/" (strip_prefix "core/" s))
  | _ => Throw TypeError
  end.

(** [Object.keys(v)] throws on [undefined] and [null] only. *)
Definition Object_keys_check (v : value) : outcome unit :=
  match v with
  | VUndefined | VNull => Throw TypeError
  | _ => Return tt
  end.

(* ====================================================================== *)
(** * Data loading                                                          *)
(* ====================================================================== *)

Section Client.

Variable CONFIG : config.

(** The network: the answer to a request, given everything the run has done
    before it; [None] is a request that fails (a rejected [fetch]). *)
Variable network : list event -> string -> fetch_options -> option response.

(** [DecompressionStream('gzip')] on a whole stream: [None] when the data
    is no valid gzip. *)
Variable gunzip : list byte -> option (list byte).

(** [JSON.parse] on the text of a body: [None] when it is no JSON. *)
Variable JSON_parse : list byte -> option value.

(** [Number.prototype.toLocaleString], [Number.prototype.toFixed] and
    [new Date(s).toLocaleTimeString()]. *)
Variable toLocaleString : number -> string.
Variable toFixed : number -> nat -> string.
Variable toLocaleTimeString : string -> string.

Definition fetch (url : string) (options : fetch_options) : M response :=
  fun w =>
    let w' := {| st := st w; page := page w;
                 trace := trace w ++ [EFetch url options] |} in
    match network (trace w) url options with
    | Some r => (Return r, w')
    | None => (Throw TypeError, w')
    end.

(** [new Response(stream).json()] and [response.json()]: the text of the
    whole stream, parsed. *)
Definition json (stream : list chunk) : M value :=
  log (EJsonParse (concat stream));;
  match JSON_parse (concat stream) with
  | Some v => mret v
  | None => throw SyntaxError
  end.

(** [stream.pipeThrough(new DecompressionStream('gzip'))], as the reader of
    the result sees it. *)
Definition pipeThrough_gzip (stream : list chunk) : M (list chunk) :=
  log (EDecompress (concat stream));;
  match gunzip (concat stream) with
  | Some data => mret [data]
  | None => throw TypeError
  end.

Definition fetchWithDecompress (url : string) (options : fetch_options)
    : M value :=
  let fetchUrl := if useGzip CONFIG then url +:+ ".gz" else url in
  response ← fetch fetchUrl options;
  if negb (ok response) then
    if useGzip CONFIG then
      fallbackResponse ← fetch url options;
      if negb (ok fallbackResponse)
      then throw (Error ("HTTP " +:+ pretty (status fallbackResponse)))
      else json (body fallbackResponse)
    else throw (Error ("HTTP " +:+ pretty (status response)))
  else
    let reader := getReader (body response) in
    match read reader with
    | (None, _) => mret VNull
    | (Some value, reader) =>
        let isEncrypted :=
          byte_is (value !! 0%nat) x1f && byte_is (value !! 1%nat) x8b in
        let combinedStream := combinedStream value reader in
        if isEncrypted then
          try_catch
            (decompressedStream ← pipeThrough_gzip (queue combinedStream);
             json decompressedStream)
            (fun e =>
               throw (Error
                 "CORRUPTED_GZIP: Data header matched but decompression failed."))
        else json (queue combinedStream)
    end.

Definition loadMetadata : M value :=
  try_catch
    (fetchWithDecompress (dataBaseUrl CONFIG +:+ "/metadata.json")
       {| cache := None |})
    (fun error =>
       throw (Error
         "Could not load metadata file. Ensure data pipeline has run.")).

Definition loadCoreGrid (metadata : value) : M value :=
  updateLoadingText "Loading grid geometry...";;
  try_catch
    (available_files ← lift (js_get metadata "available_files");
     gridFile ← lift (js_get available_files "core_grid");
     cleanPath ← lift (cleanPath_of gridFile);
     grid ← fetchWithDecompress (dataBaseUrl CONFIG +:+ "/" +:+ cleanPath)
               {| cache := Some "force-cache" |};
     grid ← lift (decorate_features grid);
     grid_metadata ← lift (js_get grid "metadata");
     _ ← lift (js_get grid_metadata "resolution");
     mret grid)
    (fun error =>
       throw (Error "Could not load grid geometry. Check data files.")).

Definition loadVibeScores : M value :=
  updateLoadingText "Loading vibe scores...";;
  try_catch
    (data ← fetchWithDecompress (dataBaseUrl CONFIG +:+ "/vibe_scores.json")
               {| cache := Some "no-cache" |};
     data_pulse ← lift (js_get data "pulse");
     modify (set_pulse (js_or data_pulse VNull));;
     data_insights ← lift (js_get data "insights");
     modify (set_insights (js_or data_insights (VArr [])));;
     data_cells ← lift (js_get data "cells");
     lift (Object_keys_check data_cells);;
     mret data)
    (fun error =>
       throw (Error "Could not load vibe scores. Data may be processing.")).

Definition loadAllData : M bool :=
  try_catch
    (modify (set_isLoading true);;
     m ← loadMetadata;
     modify (set_metadata m);;
     s ← get_state;
     g ← loadCoreGrid (metadata s);
     modify (set_coreGrid g);;
     v ← loadVibeScores;
     modify (set_vibeScores v);;
     modify (set_isLoading false);;
     mret true)
    (fun error =>
       modify (set_isLoading false);;
       throw error).

(* ====================================================================== *)
(** * UI updates                                                            *)
(* ====================================================================== *)

(** The colour class of the humanity ratio. *)
Definition ratioClass_of (ratio : number) : string :=
  if js_gt ratio (Fin 1) then "font-bold text-green-400"
  else if js_gt ratio (Fin 0.5) then "font-bold text-yellow-400"
  else "font-bold text-red-400".

(** [state.pulse] is the field of [state] the function reads; it writes the
    page. *)
Definition updateGlobalPulse (pulse : option global_pulse) (d : dom) : dom :=
  match pulse with
  | None => d
  | Some pulse =>
      let progressVal := toLocaleString (Fin (progress_signal pulse)) in
      let noiseVal := toLocaleString (Fin (noise_signal pulse)) in
      let ratioVal := toFixed (Fin (humanity_ratio pulse)) 2 in
      let d := set_textContent "pulseProgress" progressVal d in
      let d := set_textContent "pulseNoise" noiseVal d in
      let d := set_textContent "pulseProgressMobile" progressVal d in
      let d := set_textContent "pulseNoiseMobile" noiseVal d in
      let ratio := Fin (humanity_ratio pulse) in
      let ratioClass := ratioClass_of ratio in
      let d := set_className "pulseRatio" ("text-lg " +:+ ratioClass)
                 (set_textContent "pulseRatio" ratioVal d) in
      let d := set_className "pulseRatioMobile" ratioClass
                 (set_textContent "pulseRatioMobile" ratioVal d) in
      d
  end.

(** The four accumulators of the loop of [updateStats]. *)
Record totals := {
  totalEvents : Q;
  totalVibe : Q;
  totalNoise : Q;
  totalProgress : Q
}.

(** One turn of [for (const cellData of Object.values(cells))]. *)
Definition scan_step (t : totals) (cellData : cell) : totals :=
  {| totalVibe := totalVibe t + vibe cellData;
     totalEvents := totalEvents t + or_zero (count cellData);
     totalNoise := totalNoise t + or_zero (noise_count cellData);
     totalProgress := totalProgress t + or_zero (progress_count cellData) |}.

(** The whole loop, from the four zeros. *)
Definition scan (cellDatas : list cell) : totals :=
  fold_left scan_step cellDatas
    {| totalEvents := 0; totalVibe := 0; totalNoise := 0; totalProgress := 0 |}.

(** A length as a number. *)
Definition of_nat (n : nat) : Q := inject_Z (Z.of_nat n).

(** [state.vibeScores] and [state.coreGrid] are the fields of [state] the
    function reads; it writes the page. *)
Definition updateStats (vibeScores : option vibe_scores) (coreGrid : value)
    (d : dom) : dom :=
  match vibeScores with
  | None => d
  | Some vibeScores =>
      if negb (truthy coreGrid) then d
      else
        let totalRegions := length (Object_keys (cells vibeScores)) in
        let t := scan (Object_values (cells vibeScores)) in
        let avgVibe := js_div (totalVibe t) (of_nat totalRegions) in
        let d := set_textContent "statRegions"
                   (toLocaleString (Fin (of_nat totalRegions))) d in
        let d := set_textContent "statEvents"
                   (toLocaleString (Fin (totalEvents t))) d in
        let d := set_textContent "statAvgVibe" (toFixed avgVibe 3) d in
        let d := set_textContent "statAvgVibeSide" (toFixed avgVibe 3) d in
        let d := set_textContent "statNoise"
                   (toLocaleString (Fin (totalNoise t))) d in
        let d := set_textContent "statProgress"
                   (toLocaleString (Fin (totalProgress t))) d in
        let d := set_textContent "statRegionsMobile"
                   (toLocaleString (Fin (of_nat totalRegions))) d in
        match generated_at vibeScores with
        | Some date =>
            if negb (String.eqb date "")
            then set_textContent "lastUpdated" (toLocaleTimeString date) d
            else d
        | None => d
        end
  end.

(* ====================================================================== *)
(** * The map: lookup, colour scheme, view buttons                          *)
(* ====================================================================== *)

(** The lookup object handed to the map: it is built key by key from the
    cells.  [state.vibeScores] and [state.currentViewMode] are the fields
    of [state] the function reads.  The keys are H3 indexes: a key that
    names a member of [Object.prototype] is outside the model. *)
Definition createVisualizationLookup
    (vibeScores : vibe_scores) (currentViewMode : string)
    : gmap string number :=
  fold_left
    (fun lookup h3Index =>
       <[h3Index := getVisualizationValue vibeScores currentViewMode h3Index]>
         lookup)
    (Object_keys (cells vibeScores)) ∅.

(** The flat array of stops: a position, its colour, the next position,
    its colour, and so on. *)
Definition getColorScheme (currentViewMode : string) : list value :=
  if String.eqb currentViewMode "progress" then
    [VNum 0.0; VStr "#1e293b";
     VNum 0.2; VStr "#22c55e";
     VNum 0.4; VStr "#10b981";
     VNum 0.6; VStr "#14b8a6";
     VNum 0.8; VStr "#06b6d4";
     VNum 1.0; VStr "#0ea5e9"]
  else if String.eqb currentViewMode "noise" then
    [VNum 0.0; VStr "#1e293b";
     VNum 0.2; VStr "#fbbf24";
     VNum 0.4; VStr "#f97316";
     VNum 0.6; VStr "#ef4444";
     VNum 0.8; VStr "#dc2626";
     VNum 1.0; VStr "#991b1b"]
  else
    [VNum 0.0; VStr "#ef4444";
     VNum 0.25; VStr "#f97316";
     VNum 0.5; VStr "#eab308";
     VNum 0.65; VStr "#84cc16";
     VNum 0.8; VStr "#22c55e";
     VNum 1.0; VStr "#10b981"].

Definition activeClass : string :=
  "px-4 py-2 rounded-lg font-medium text-sm transition-all bg-gradient-to-r from-green-500 to-blue-500 text-white shadow-lg".

Definition inactiveClass : string :=
  "px-4 py-2 rounded-lg font-medium text-sm transition-all text-slate-400 hover:text-white hover:bg-slate-700/50".

Definition activeClassMobile : string :=
  "flex-1 px-3 py-2 rounded-md font-medium text-xs transition-all bg-gradient-to-r from-green-500 to-blue-500 text-white".

Definition inactiveClassMobile : string :=
  "flex-1 px-3 py-2 rounded-md font-medium text-xs transition-all text-slate-400 bg-slate-800/50".

Definition updateActiveButton (mode : string) (d : dom) : dom :=
  let d := set_className "btnBalancedView"
             (if String.eqb mode "balanced" then activeClass
              else inactiveClass) d in
  let d := set_className "btnProgressView"
             (if String.eqb mode "progress" then activeClass
              else inactiveClass) d in
  let d := set_className "btnNoiseView"
             (if String.eqb mode "noise" then activeClass
              else inactiveClass) d in
  let d := set_className "btnBalancedViewMobile"
             (if String.eqb mode "balanced" then activeClassMobile
              else inactiveClassMobile) d in
  let d := set_className "btnProgressViewMobile"
             (if String.eqb mode "progress" then activeClassMobile
              else inactiveClassMobile) d in
  let d := set_className "btnNoiseViewMobile"
             (if String.eqb mode "noise" then activeClassMobile
              else inactiveClassMobile) d in
  d.

(* ====================================================================== *)
(** * The tooltip and the popup                                             *)
(* ====================================================================== *)

(** The [truncatedHeadline] of [showHoverTooltip], from
    [cellData.headline_sample] ([None] is a cell without one).  A
    character of the model's strings stands for one code unit of the
    source's: [length] and [substring] count those. *)
Definition truncatedHeadline (headline : option string) : option string :=
  match headline with
  | None => None
  | Some headline =>
      if negb (String.eqb headline "") && negb (String.eqb headline "N/A")
      then Some (if (80 <? String.length headline)%nat
                 then String.substring 0 77 headline +:+ "..."
                 else headline)
      else None
  end.

(** [a * b] *)
Definition js_mul (a b : number) : number :=
  match a, b with
  | NaN, _ | _, NaN => NaN
  | Fin x, Fin y => Fin (x * y)
  | Fin x, PosInf | PosInf, Fin x =>
      if Qeq_bool x 0 then NaN else if Qltb 0 x then PosInf else NegInf
  | Fin x, NegInf | NegInf, Fin x =>
      if Qeq_bool x 0 then NaN else if Qltb 0 x then NegInf else PosInf
  | PosInf, PosInf | NegInf, NegInf => PosInf
  | PosInf, NegInf | NegInf, PosInf => NegInf
  end.

(** [noisePercent] and [progressPercent] of [showDetailPopup]: the share of
    a counter in the events of the cell, as the text [toFixed] makes of it,
    or the number 0 for a cell without events. *)
Definition eventPercent (counter totalEvents : Q) : value :=
  if js_gt (Fin totalEvents) (Fin 0)
  then VStr (toFixed (js_mul (js_div counter totalEvents) (Fin 100)) 1)
  else VNum 0.

Definition noisePercent (cellData : cell) : value :=
  eventPercent (or_zero (noise_count cellData)) (or_zero (count cellData)).

Definition progressPercent (cellData : cell) : value :=
  eventPercent (or_zero (progress_count cellData)) (or_zero (count cellData)).

(* ====================================================================== *)
(** * UI panel controls                                                     *)
(* ====================================================================== *)

(** The class lists of the elements, by id: what [classList.add] and
    [classList.remove] work on. *)
Definition classLists := gmap string (gset string).

(** [const el = document.getElementById(id); if (el) el.classList.add(c)]
    and the same with [remove]. *)
Definition classList_add (id c : string) (l : classLists) : classLists :=
  match l !! id with
  | Some classes => <[id := {[c]} ∪ classes]> l
  | None => l
  end.

Definition classList_remove (id c : string) (l : classLists) : classLists :=
  match l !! id with
  | Some classes => <[id := classes ∖ {[c]}]> l
  | None => l
  end.

(** [state.sidePanelOpen] is the field of [state] the two functions read
    and write, [window.innerWidth] the width they read. *)
Definition toggleSidePanel (innerWidth : Q) (sidePanelOpen : bool)
    (l : classLists) : bool * classLists :=
  match l !! "sidePanel" with
  | None => (sidePanelOpen, l)
  | Some _ =>
      let sidePanelOpen := negb sidePanelOpen in
      if sidePanelOpen then
        let l := classList_add "sidePanel" "open" l in
        (sidePanelOpen,
         if js_lt (Fin innerWidth) (Fin 768)
         then classList_remove "panelBackdrop" "hidden" l
         else l)
      else
        let l := classList_remove "sidePanel" "open" l in
        (sidePanelOpen, classList_add "panelBackdrop" "hidden" l)
  end.

Definition closeSidePanel (sidePanelOpen : bool) (l : classLists)
    : bool * classLists :=
  match l !! "sidePanel" with
  | None => (sidePanelOpen, l)
  | Some _ =>
      (false,
       classList_add "panelBackdrop" "hidden"
         (classList_remove "sidePanel" "open" l))
  end.

(* ====================================================================== *)
(** * Map interactions                                                      *)
(* ====================================================================== *)

(** What the handlers of [addMapInteractions] keep: the closure variable
    [hoveredId]; the hover flags of the features, as [setFeatureState]
    writes them into the map; the cursor of the canvas; the cell whose
    tooltip [state.hoverTooltip] shows. *)
Record hover := {
  hoveredId : option string;
  featureState : gmap string bool;
  cursor : string;
  hoverTooltip : option string
}.

(** [state.map.setFeatureState({source: 'h3-grid', id}, {hover})] *)
Definition setFeatureState (id : string) (flag : bool)
    (features : gmap string bool) : gmap string bool :=
  <[id := flag]> features.

(** The handler of 'mousemove': [features] are the [h3_index] of
    [e.features]. *)
Definition on_mousemove (vibeScores : vibe_scores) (features : list string)
    (h : hover) : hover :=
  match features with
  | [] => h
  | h3Index :: _ =>
      let cellData := cells vibeScores !! h3Index in
      let flags :=
        match hoveredId h with
        | Some id => setFeatureState id false (featureState h)
        | None => featureState h
        end in
      {| hoveredId := Some h3Index;
         featureState := setFeatureState h3Index true flags;
         cursor := "pointer";
         hoverTooltip :=
           match cellData with
           | Some _ => Some h3Index
           | None => hoverTooltip h
           end |}
  end.

(** The handler of 'mouseleave'. *)
Definition on_mouseleave (h : hover) : hover :=
  {| hoveredId := None;
     featureState :=
       match hoveredId h with
       | Some id => setFeatureState id false (featureState h)
       | None => featureState h
       end;
     cursor := "";
     hoverTooltip := None |}.

(* ====================================================================== *)
(** * The vocabulary of the properties                                      *)
(* ====================================================================== *)

(** An element with another text, with another class. *)
Definition with_text (text : string) (el : element) : element :=
  {| textContent := text; className := className el |}.

Definition with_class (cls : string) (el : element) : element :=
  {| textContent := textContent el; className := cls |}.

(** The sum of a field over the cells. *)
Definition sum_of (f : cell -> Q) (cellDatas : list cell) : Q :=
  fold_right (fun cellData acc => f cellData + acc)%Q 0%Q cellDatas.

(** The world after the run has added [events] to its trace. *)
Definition after (events : list event) (w : world) : world :=
  {| st := st w; page := page w; trace := trace w ++ events |}.

(** The first two bytes of a chunk are the magic number of gzip. *)
Definition gzip_magic (first : chunk) : bool :=
  byte_is (first !! 0%nat) x1f && byte_is (first !! 1%nat) x8b.

(** The result of [JSON.parse] as an outcome. *)
Definition parsed (text : list byte) : outcome value :=
  match JSON_parse text with
  | Some v => Return v
  | None => Throw SyntaxError
  end.

(** The two errors [fetchWithDecompress] builds. *)
Definition corrupted : exn :=
  Error "CORRUPTED_GZIP: Data header matched but decompression failed.".

Definition http_error (r : response) : exn :=
  Error ("HTTP " +:+ pretty (status r)).

(** The URL of the first request for [url]. *)
Definition fetchUrl_of (url : string) : string :=
  if useGzip CONFIG then url +:+ ".gz" else url.

(** An [Error] whose message is [HTTP] and a status. *)
Definition is_http_error (o : outcome value) : Prop :=
  exists status : N, o = Throw (Error ("HTTP " +:+ pretty status)).

(** Strings of decimal digits: the indices of an array as property names. *)
Definition is_digit (c : Ascii.ascii) : bool :=
  (48 <=? Ascii.nat_of_ascii c)%nat && (Ascii.nat_of_ascii c <=? 57)%nat.

Fixpoint all_digits (s : string) : bool :=
  match s with
  | EmptyString => true
  | String c s' => is_digit c && all_digits s'
  end.

(** The URLs requested in a run, in the order of the requests. *)
Definition requests (events : list event) : list string :=
  omap (fun e => match e with EFetch url _ => Some url | _ => None end)
       events.

(** The requests one call of [fetchWithDecompress] makes for a file: one
    request, and with gzip enabled possibly the fallback after it. *)
Definition attempts (url : string) (urls : list string) : Prop :=
  if useGzip CONFIG
  then urls = [url +:+ ".gz"] \/ urls = [url +:+ ".gz"; url]
  else urls = [url].

(** [metadata.available_files.core_grid], cleaned. *)
Definition grid_path (file : value) : outcome string :=
  match js_get file "available_files" with
  | Throw e => Throw e
  | Return available_files =>
      match js_get available_files "core_grid" with
      | Throw e => Throw e
      | Return gridFile => cleanPath_of gridFile
      end
  end.

(** The errors the three loaders throw. *)
Definition metadata_error : exn :=
  Error "Could not load metadata file. Ensure data pipeline has run.".

Definition grid_error : exn :=
  Error "Could not load grid geometry. Check data files.".

Definition scores_error : exn :=
  Error "Could not load vibe scores. Data may be processing.".

(** What [fetchWithDecompress] makes of the bytes of a body: the result and
    the events after the request. *)
Definition decoded (data : list byte) : outcome value * list event :=
  if byte_is (data !! 0%nat) x1f && byte_is (data !! 1%nat) x8b then
    match gunzip data with
    | None => (Throw corrupted, [EDecompress data])
    | Some text =>
        (match JSON_parse text with
         | Some v => Return v
         | None => Throw corrupted
         end, [EDecompress data; EJsonParse text])
    end
  else (parsed data, [EJsonParse data]).

(** The world in which a loader runs after it has set the loading text. *)
Definition with_loading_text (text : string) (w : world) : world :=
  {| st := st w;
     page := set_textContent "loadingSubtext" ""
               (set_textContent "loadingText" text (page w));
     trace := trace w |}.

(** [null] and [undefined]: the values that have no property to read. *)
Definition nullish (v : value) : Prop := v = VNull \/ v = VUndefined.

(** The stops of a colour scheme: the flat array read two by two. *)
Fixpoint stops (scheme : list value) : option (list (Q * string)) :=
  match scheme with
  | [] => Some []
  | VNum position :: VStr colour :: rest =>
      cons (position, colour) <$> stops rest
  | _ => None
  end.

(** Each position is below the next one. *)
Fixpoint ascending (positions : list Q) : bool :=
  match positions with
  | x :: (y :: _) as rest => Qltb x y && ascending rest
  | _ => true
  end.

(** The positions start at 0 and end at 1. *)
Definition spans_unit (positions : list Q) : bool :=
  match positions with
  | [] => false
  | x :: _ => Qeq_bool x 0 && Qeq_bool (List.last positions 0%Q) 1
  end.

(** The view buttons of the desktop and of the mobile layout, each with the
    view mode it stands for. *)
Definition view_buttons : list (string * string) :=
  [("btnBalancedView", "balanced");
   ("btnProgressView", "progress");
   ("btnNoiseView", "noise")].

Definition view_buttons_mobile : list (string * string) :=
  [("btnBalancedViewMobile", "balanced");
   ("btnProgressViewMobile", "progress");
   ("btnNoiseViewMobile", "noise")].

(** The element [id] is on the page and carries the class [c]. *)
Definition has_class (id c : string) (l : classLists) : Prop :=
  exists classes : gset string, l !! id = Some classes /\ c ∈ classes.

(** The events of the layer 'vibe-fill' that the hover handlers get, and a
    run of the handlers over a sequence of them. *)
Inductive pointer_event :=
  | Mousemove (features : list string)
  | Mouseleave.

Definition handle (vibeScores : vibe_scores) (h : hover) (e : pointer_event)
    : hover :=
  match e with
  | Mousemove features => on_mousemove vibeScores features h
  | Mouseleave => on_mouseleave h
  end.

(** Only the feature under the pointer is flagged; without such a feature
    there is no tooltip; the tooltip shows a cell that has data. *)
Definition hover_consistent (vibeScores : vibe_scores) (h : hover) : Prop :=
  (forall id : string,
     featureState h !! id = Some true -> hoveredId h = Some id) /\
  (hoveredId h = None -> hoverTooltip h = None) /\
  (forall h3Index : string,
     hoverTooltip h = Some h3Index ->
     is_Some (cells vibeScores !! h3Index)).

(* ====================================================================== *)
(** * Sample inputs                                                         *)
(* ====================================================================== *)

(** One cell with a missing and a zero counter, and the scores that hold
    it. *)
Definition sample_cell : cell :=
  {| vibe := 0.25; p_int := 4; n_int := 25;
     count := Some 12%Q; noise_count := None; progress_count := Some 0%Q |}.

Definition sample_scores : vibe_scores :=
  {| cells := {[ "832830fffffffff" := sample_cell ]};
     generated_at := Some "2025-01-01T00:00:00Z" |}.

(** A configuration and two documents; a network that serves the metadata
    compressed, the grid only uncompressed and an empty body for the vibe
    scores; a stand-in for the decompressor, which drops the two magic
    bytes; a stand-in for the parser, which knows the texts of the two
    documents. *)
Definition sample_config : config :=
  {| dataBaseUrl := "/data"; useGzip := true |}.

Definition sample_metadata : value :=
  VObj {[ "available_files" :=
            VObj {[ "core_grid" := VStr "core/h3_grid_res3.json" ]} ]}.

Definition sample_feature : value :=
  VObj {[ "id" := VStr "832830fffffffff";
          "properties" := VObj {[ "resolution" := VNum 3 ]} ]}.

Definition sample_grid : value :=
  VObj {[ "features" := VArr [sample_feature];
          "metadata" := VObj {[ "resolution" := VNum 3 ]} ]}.

Definition sample_network (history : list event) (url : string)
    (options : fetch_options) : option response :=
  if String.eqb url "/data/metadata.json.gz" then
    Some {| ok := true; status := 200; body := [[x1f; x8b]; [x6d]] |}
  else if String.eqb url "/data/h3_grid_res3.json.gz" then
    Some {| ok := false; status := 404; body := [] |}
  else if String.eqb url "/data/h3_grid_res3.json" then
    Some {| ok := true; status := 200; body := [[x67]] |}
  else if String.eqb url "/data/vibe_scores.json.gz" then
    Some {| ok := true; status := 200; body := [] |}
  else None.

Definition sample_gunzip (data : list byte) : option (list byte) :=
  match data with
  | x1f :: x8b :: text => Some text
  | _ => None
  end.

Definition sample_JSON_parse (text : list byte) : option value :=
  match text with
  | [x6d] => Some sample_metadata
  | [x67] => Some sample_grid
  | _ => None
  end.

Definition sample_world : world :=
  {| st := {| metadata := VNull; coreGrid := VNull; vibeScores := VNull;
              pulse := VNull; insights := VNull; isLoading := false |};
     page := ∅;
     trace := [] |}.

(** Stand-ins for the formatting functions of the browser. *)
Definition sample_format (n : number) : string :=
  match n with
  | Fin q => pretty (Qnum q) +:+ "/" +:+ pretty (Qden q)
  | NaN => "NaN"
  | PosInf => "Infinity"
  | NegInf => "-Infinity"
  end.

Definition sample_toFixed (n : number) (digits : nat) : string :=
  sample_format n.

Definition sample_time (date : string) : string := date.

(** A page with two of the elements the updates write, and a pulse. *)
Definition sample_page : dom :=
  {[ "statEvents" := {| textContent := "--"; className := "stat" |};
     "pulseRatio" := {| textContent := "--"; className := "" |} ]}.

Definition sample_pulse : global_pulse :=
  {| progress_signal := 120; noise_signal := 300; humanity_ratio := 0.4 |}.

(** Vibe scores as a document, whole and without its cells, and a grid
    without its metadata; a network that serves the vibe scores in one
    chunk; a parser that knows the whole documents and one that knows the
    partial ones. *)
Definition sample_scores_properties : gmap string value :=
  {[ "cells" := VObj {[ "832830fffffffff" := VObj {[ "vibe" := VNum 0.25 ]} ]};
     "pulse" := VObj {[ "humanity_ratio" := VNum 0.4 ]} ]}.

Definition sample_pulse_properties : gmap string value :=
  {[ "pulse" := VObj {[ "humanity_ratio" := VNum 0.4 ]} ]}.

Definition sample_grid_bare : value :=
  VObj {[ "features" := VArr [sample_feature] ]}.

Definition sample_network_scores (history : list event) (url : string)
    (options : fetch_options) : option response :=
  if String.eqb url "/data/vibe_scores.json.gz" then
    Some {| ok := true; status := 200; body := [[x76]] |}
  else sample_network history url options.

Definition sample_JSON_parse_scores (text : list byte) : option value :=
  match text with
  | [x76] => Some (VObj sample_scores_properties)
  | _ => sample_JSON_parse text
  end.

Definition sample_JSON_parse_partial (text : list byte) : option value :=
  match text with
  | [x76] => Some (VObj sample_pulse_properties)
  | [x67] => Some sample_grid_bare
  | _ => sample_JSON_parse text
  end.

(** A network that cuts the body of the metadata into other chunks once a
    request has been made, and a world in which one has. *)
Definition sample_network_rechunked (history : list event) (url : string)
    (options : fetch_options) : option response :=
  if String.eqb url "/data/metadata.json.gz" then
    Some {| ok := true; status := 200;
            body := match history with
                    | [] => [[x1f; x8b]; [x6d]]
                    | _ => [[x1f; x8b; x6d]]
                    end |}
  else sample_network history url options.

Definition sample_world_later : world :=
  {| st := st sample_world;
     page := page sample_world;
     trace := [EFetch "/data/metadata.json.gz" {| cache := None |}] |}.

(** Two of the view buttons; the class lists of the panel and its backdrop;
    a headline of 89 characters; a map on which nothing is hovered. *)
Definition sample_buttons : dom :=
  {[ "btnBalancedView" := {| textContent := "Balanced"; className := "" |};
     "btnNoiseView" := {| textContent := "Noise"; className := "" |} ]}.

Definition sample_classLists : classLists :=
  {[ "sidePanel" := ∅; "panelBackdrop" := {[ "hidden" ]} ]}.

Definition sample_headline : string :=
  "Regional council approves a long awaited plan to restore the wetlands of the river delta.".

Definition sample_hover : hover :=
  {| hoveredId := None; featureState := ∅; cursor := "";
     hoverTooltip := None |}.

(** The sample grid as [loadCoreGrid] returns it. *)
Definition sample_grid_decorated : value :=
  match decorate_features sample_grid with
  | Return grid => grid
  | Throw _ => VNull
  end.

(* ====================================================================== *)
(** * Properties: numbers and the colour scale                              *)
(* ====================================================================== *)

Lemma Qltb_lt (x y : Q) : Qltb x y = true <-> (x < y)%Q.
Proof.
  unfold Qltb. rewrite Qlt_alt.
  destruct (x ?= y)%Q; split; congruence.
Qed.

Lemma Qltb_ge (x y : Q) : Qltb x y = false <-> (y <= x)%Q.
Proof.
  rewrite <- not_true_iff_false, Qltb_lt. split.
  - apply Qnot_lt_le.
  - intros H1 H2. exact (Qlt_not_le _ _ H2 H1).
Qed.

Lemma js_lt_Fin (x y : Q) : js_lt (Fin x) (Fin y) = Qltb x y.
Proof. reflexivity. Qed.

(** Divisions by a constant of the source stay finite. *)
Lemma js_div_nonzero (x y : Q) : ~ (y == 0)%Q -> js_div x y = Fin (x / y).
Proof.
  intros Hy. unfold js_div.
  destruct (Qeq_bool y 0) eqn:E; [|reflexivity].
  apply Qeq_bool_iff in E. contradiction.
Qed.

Ltac by_thresholds :=
  repeat match goal with
  | |- context [Qltb ?x ?y] =>
      let E := fresh "E" in
      destruct (Qltb x y) eqn:E;
      [apply Qltb_lt in E | apply Qltb_ge in E]
  end.

(** The colour and the label of a number fall in the same bucket, whatever
    the number ([NaN] and the infinities included). *)
Lemma getVibeLabel_getVibeColor (v : number) :
  (getVibeLabel v = "Crisis" <-> getVibeColor v = "#ef4444") /\
  (getVibeLabel v = "Tense" <-> getVibeColor v = "#f97316") /\
  (getVibeLabel v = "Neutral" <-> getVibeColor v = "#eab308") /\
  (getVibeLabel v = "Stable" <-> getVibeColor v = "#84cc16") /\
  (getVibeLabel v = "Thriving" <-> getVibeColor v = "#22c55e").
Proof.
  unfold getVibeLabel, getVibeColor.
  destruct (js_lt v (Fin (-0.5))); [|destruct (js_lt v (Fin 0.0));
    [|destruct (js_lt v (Fin 0.3)); [|destruct (js_lt v (Fin 0.6))]]];
  repeat split; intros; first [reflexivity | discriminate].
Qed.

(** The five buckets of the colour scale on the reals. *)
Lemma getVibeColor_buckets (q : Q) :
  (getVibeColor (Fin q) = "#ef4444" <-> (q < -0.5)%Q) /\
  (getVibeColor (Fin q) = "#f97316" <-> (-0.5 <= q /\ q < 0.0)%Q) /\
  (getVibeColor (Fin q) = "#eab308" <-> (0.0 <= q /\ q < 0.3)%Q) /\
  (getVibeColor (Fin q) = "#84cc16" <-> (0.3 <= q /\ q < 0.6)%Q) /\
  (getVibeColor (Fin q) = "#22c55e" <-> (0.6 <= q)%Q).
Proof.
  unfold getVibeColor. rewrite !js_lt_Fin. by_thresholds;
  repeat split; intros; first [reflexivity | discriminate | lra].
Qed.

(** C4.  [getVibeColor] and [getVibeLabel] are functions of every number;
    on every real they cut at the same four thresholds -0.5, 0.0, 0.3 and
    0.6 into the same five buckets, and on every number the label is
    'Crisis', 'Tense', 'Neutral', 'Stable', 'Thriving' exactly when the
    colour is '#ef4444', '#f97316', '#eab308', '#84cc16', '#22c55e'. *)
Theorem vibe_color_and_label_agree :
  (forall q : Q,
     (getVibeColor (Fin q) = "#ef4444" /\ getVibeLabel (Fin q) = "Crisis"
        <-> (q < -0.5)%Q) /\
     (getVibeColor (Fin q) = "#f97316" /\ getVibeLabel (Fin q) = "Tense"
        <-> (-0.5 <= q /\ q < 0.0)%Q) /\
     (getVibeColor (Fin q) = "#eab308" /\ getVibeLabel (Fin q) = "Neutral"
        <-> (0.0 <= q /\ q < 0.3)%Q) /\
     (getVibeColor (Fin q) = "#84cc16" /\ getVibeLabel (Fin q) = "Stable"
        <-> (0.3 <= q /\ q < 0.6)%Q) /\
     (getVibeColor (Fin q) = "#22c55e" /\ getVibeLabel (Fin q) = "Thriving"
        <-> (0.6 <= q)%Q)) /\
  (forall v : number,
     (getVibeLabel v = "Crisis" <-> getVibeColor v = "#ef4444") /\
     (getVibeLabel v = "Tense" <-> getVibeColor v = "#f97316") /\
     (getVibeLabel v = "Neutral" <-> getVibeColor v = "#eab308") /\
     (getVibeLabel v = "Stable" <-> getVibeColor v = "#84cc16") /\
     (getVibeLabel v = "Thriving" <-> getVibeColor v = "#22c55e")) /\
  (forall v : number,
     getVibeColor v
       ∈ ["#ef4444"; "#f97316"; "#eab308"; "#84cc16"; "#22c55e"] /\
     getVibeLabel v ∈ ["Crisis"; "Tense"; "Neutral"; "Stable"; "Thriving"]).
Proof.
  split; [|split; [exact getVibeLabel_getVibeColor|]]; cycle 1.
  { intros v. unfold getVibeColor, getVibeLabel.
    destruct (js_lt v (Fin (-0.5))); [|destruct (js_lt v (Fin 0.0));
      [|destruct (js_lt v (Fin 0.3)); [|destruct (js_lt v (Fin 0.6))]]];
    split; repeat constructor. }
  intros q.
  destruct (getVibeColor_buckets q) as (B1 & B2 & B3 & B4 & B5).
  destruct (getVibeLabel_getVibeColor (Fin q)) as (A1 & A2 & A3 & A4 & A5).
  rewrite <- B1, <- B2, <- B3, <- B4, <- B5.
  tauto.
Qed.

(* ====================================================================== *)
(** * Properties: the value to visualize                                    *)
(* ====================================================================== *)

Lemma Math_min_Fin (x y : Q) : Math_min (Fin x) (Fin y) = Fin (Qmin x y).
Proof. reflexivity. Qed.

Lemma js_div_10 (x : Q) : js_div x 10 = Fin (x / 10).
Proof. apply js_div_nonzero. discriminate. Qed.

Lemma js_div_2 (x : Q) : js_div x 2 = Fin (x / 2).
Proof. apply js_div_nonzero. discriminate. Qed.

Lemma intensity_range (x : Q) :
  (0 <= x)%Q -> (0 <= Qmin 1 (x / 10) /\ Qmin 1 (x / 10) <= 1)%Q.
Proof.
  intros Hx. split.
  - apply Q.min_glb; [lra|].
    apply Qle_shift_div_l; lra.
  - apply Q.le_min_l.
Qed.

Lemma balanced_range (x : Q) :
  (-1 <= x)%Q -> (x <= 1)%Q -> (0 <= (x + 1) / 2 /\ (x + 1) / 2 <= 1)%Q.
Proof.
  intros H1 H2. split.
  - apply Qle_shift_div_l; lra.
  - apply Qle_shift_div_r; lra.
Qed.

(** C9.  For a cell with [p_int >= 0], [n_int >= 0] and [vibe] in [-1, 1],
    [getVisualizationValue] returns [min(1, p_int/10)] in mode 'progress',
    [min(1, n_int/10)] in mode 'noise' and [(vibe+1)/2] in 'balanced' and
    in every other mode, each time a number of [0, 1]; for an index with no
    cell it returns 0 in every mode. *)
Theorem getVisualizationValue_range :
  (forall (vibeScores : vibe_scores) (mode h3Index : string) (cellData : cell),
     cells vibeScores !! h3Index = Some cellData ->
     (0 <= p_int cellData)%Q -> (0 <= n_int cellData)%Q ->
     (-1 <= vibe cellData)%Q -> (vibe cellData <= 1)%Q ->
     (mode = "progress" ->
        getVisualizationValue vibeScores mode h3Index
        = Fin (Qmin 1 (p_int cellData / 10))) /\
     (mode = "noise" ->
        getVisualizationValue vibeScores mode h3Index
        = Fin (Qmin 1 (n_int cellData / 10))) /\
     (mode <> "progress" -> mode <> "noise" ->
        getVisualizationValue vibeScores mode h3Index
        = Fin ((vibe cellData + 1) / 2)) /\
     exists q : Q,
       getVisualizationValue vibeScores mode h3Index = Fin q /\
       (0 <= q)%Q /\ (q <= 1)%Q) /\
  (forall (vibeScores : vibe_scores) (mode h3Index : string),
     cells vibeScores !! h3Index = None ->
     getVisualizationValue vibeScores mode h3Index = Fin 0).
Proof.
  split.
  - intros vs mode h3 c Hc Hp Hn Hv1 Hv2.
    unfold getVisualizationValue. rewrite Hc.
    rewrite !js_div_10, js_div_2, !Math_min_Fin.
    destruct (String.eqb_spec mode "progress") as [->|Hm1].
    { repeat split; try congruence.
      exists (Qmin 1 (p_int c / 10)). split; [reflexivity|].
      by apply intensity_range. }
    destruct (String.eqb_spec mode "noise") as [->|Hm2].
    { repeat split; try congruence.
      exists (Qmin 1 (n_int c / 10)). split; [reflexivity|].
      by apply intensity_range. }
    repeat split; try congruence.
    exists ((vibe c + 1) / 2)%Q. split; [reflexivity|].
    by apply balanced_range.
  - intros vs mode h3 Hc. unfold getVisualizationValue. by rewrite Hc.
Qed.

(* ====================================================================== *)
(** * Properties: the page updates                                          *)
(* ====================================================================== *)

Lemma lookup_set_textContent (id text : string) (d : dom) (j : string) :
  set_textContent id text d !! j
  = if decide (id = j) then with_text text <$> d !! j else d !! j.
Proof.
  unfold set_textContent, getElementById, dom in *.
  destruct (d !! id) as [el|] eqn:E.
  - rewrite lookup_insert. case_decide; [subst; by rewrite E | done].
  - case_decide; [subst; by rewrite E | done].
Qed.

Lemma lookup_set_className (id cls : string) (d : dom) (j : string) :
  set_className id cls d !! j
  = if decide (id = j) then with_class cls <$> d !! j else d !! j.
Proof.
  unfold set_className, getElementById, dom in *.
  destruct (d !! id) as [el|] eqn:E.
  - rewrite lookup_insert. case_decide; [subst; by rewrite E | done].
  - case_decide; [subst; by rewrite E | done].
Qed.

(** The three classes of the humanity ratio on the reals. *)
Lemma ratioClass_of_spec (r : Q) :
  (ratioClass_of (Fin r) = "font-bold text-green-400" <-> (1 < r)%Q) /\
  (ratioClass_of (Fin r) = "font-bold text-yellow-400"
     <-> (0.5 < r /\ r <= 1)%Q) /\
  (ratioClass_of (Fin r) = "font-bold text-red-400" <-> (r <= 0.5)%Q).
Proof.
  unfold ratioClass_of, js_gt. rewrite !js_lt_Fin. by_thresholds;
  repeat split; intros; first [reflexivity | discriminate | lra].
Qed.

Ltac split_id id name :=
  destruct (decide (id = name)) as [->|?].

Ltac dom_lookups :=
  repeat (first [rewrite lookup_set_className | rewrite lookup_set_textContent];
          case_decide; try discriminate; try congruence).

(** C7.  With a pulse, every element of the ticker that is on the page shows
    the pulse: the two progress elements its [progress_signal], the two
    noise elements its [noise_signal], the two ratio elements its
    [humanity_ratio] with the colour class of the ratio, and no other
    element changes; the class is green exactly when the ratio is above 1,
    yellow exactly when it is above 0.5 and at most 1, red exactly when it
    is at most 0.5.  Without a pulse the page is unchanged. *)
Theorem updateGlobalPulse_ticker :
  (forall d : dom, updateGlobalPulse None d = d) /\
  (forall (p : global_pulse) (d : dom) (id : string) (el : element),
     d !! id = Some el ->
     exists el' : element,
       updateGlobalPulse (Some p) d !! id = Some el' /\
       (id = "pulseProgress" \/ id = "pulseProgressMobile" ->
          textContent el' = toLocaleString (Fin (progress_signal p))) /\
       (id = "pulseNoise" \/ id = "pulseNoiseMobile" ->
          textContent el' = toLocaleString (Fin (noise_signal p))) /\
       (id = "pulseRatio" ->
          textContent el' = toFixed (Fin (humanity_ratio p)) 2 /\
          className el'
          = "text-lg " +:+ ratioClass_of (Fin (humanity_ratio p))) /\
       (id = "pulseRatioMobile" ->
          textContent el' = toFixed (Fin (humanity_ratio p)) 2 /\
          className el' = ratioClass_of (Fin (humanity_ratio p))) /\
       (id ∉ ["pulseProgress"; "pulseProgressMobile"; "pulseNoise";
              "pulseNoiseMobile"; "pulseRatio"; "pulseRatioMobile"] ->
          el' = el)) /\
  (forall r : Q,
     (ratioClass_of (Fin r) = "font-bold text-green-400" <-> (1 < r)%Q) /\
     (ratioClass_of (Fin r) = "font-bold text-yellow-400"
        <-> (0.5 < r /\ r <= 1)%Q) /\
     (ratioClass_of (Fin r) = "font-bold text-red-400" <-> (r <= 0.5)%Q)).
Proof.
  split; [reflexivity|]. split; [|exact ratioClass_of_spec].
  intros p d id el Hd. unfold updateGlobalPulse. cbv zeta.
  split_id id "pulseProgress";
    [|split_id id "pulseProgressMobile";
      [|split_id id "pulseNoise";
        [|split_id id "pulseNoiseMobile";
          [|split_id id "pulseRatio";
            [|split_id id "pulseRatioMobile"]]]]];
  dom_lookups; rewrite Hd; simpl;
  (eexists; split; [reflexivity|]);
  repeat split; intros; simpl;
  repeat match goal with
  | H : _ \/ _ |- _ => destruct H
  end;
  try discriminate; try congruence; try done.
  all: exfalso; set_solver.
Qed.

(** The four accumulators hold, after the loop, what they held before plus
    the four sums. *)
Lemma fold_scan_step (cellDatas : list cell) (t : totals) :
  let t' := fold_left scan_step cellDatas t in
  (totalEvents t'
     == totalEvents t + sum_of (fun c => or_zero (count c)) cellDatas)%Q /\
  (totalVibe t' == totalVibe t + sum_of vibe cellDatas)%Q /\
  (totalNoise t'
     == totalNoise t + sum_of (fun c => or_zero (noise_count c)) cellDatas)%Q /\
  (totalProgress t'
     == totalProgress t
        + sum_of (fun c => or_zero (progress_count c)) cellDatas)%Q.
Proof.
  revert t. induction cellDatas as [|c l IH]; intros t; simpl.
  - repeat split; lra.
  - destruct (IH (scan_step t c)) as (E1 & E2 & E3 & E4).
    simpl in *. repeat split; lra.
Qed.

Lemma scan_sums (cellDatas : list cell) :
  (totalEvents (scan cellDatas)
     == sum_of (fun c => or_zero (count c)) cellDatas)%Q /\
  (totalVibe (scan cellDatas) == sum_of vibe cellDatas)%Q /\
  (totalNoise (scan cellDatas)
     == sum_of (fun c => or_zero (noise_count c)) cellDatas)%Q /\
  (totalProgress (scan cellDatas)
     == sum_of (fun c => or_zero (progress_count c)) cellDatas)%Q.
Proof.
  destruct (fold_scan_step cellDatas
    {| totalEvents := 0; totalVibe := 0; totalNoise := 0;
       totalProgress := 0 |}) as (E1 & E2 & E3 & E4).
  simpl in *. unfold scan. repeat split; lra.
Qed.

Lemma length_Object_keys {A} (o : gmap string A) :
  length (Object_keys o) = size o.
Proof. unfold Object_keys. by rewrite length_fmap, length_map_to_list. Qed.

Lemma length_Object_values {A} (o : gmap string A) :
  length (Object_values o) = size o.
Proof. unfold Object_values. by rewrite length_fmap, length_map_to_list. Qed.

Lemma of_nat_nonzero (n : nat) : n <> 0%nat -> ~ (of_nat n == 0)%Q.
Proof.
  intros Hn H. unfold of_nat, Qeq in H. simpl in H. lia.
Qed.

(** A missing counter and a counter that is zero add nothing to a sum. *)
Lemma or_zero_falsy (field : option Q) :
  (field = None \/ exists q, field = Some q /\ (q == 0)%Q) ->
  or_zero field = 0%Q.
Proof.
  intros [->|(q & -> & Hq)]; [reflexivity|].
  unfold or_zero. apply Qeq_bool_iff in Hq. by rewrite Hq.
Qed.

Lemma or_zero_truthy (q : Q) : ~ (q == 0)%Q -> or_zero (Some q) = q.
Proof.
  intros Hq. unfold or_zero.
  destruct (Qeq_bool q 0) eqn:E; [|reflexivity].
  apply Qeq_bool_iff in E. contradiction.
Qed.

(** C5, as the code has it: [updateStats] returns at once, the page
    untouched, unless the core grid is loaded as well.  With both documents
    loaded and at least one cell, the loop over the cells leaves in its
    accumulators the sums of [count], [noise_count] and [progress_count]
    (a missing or zero counter adding 0) and the sum of [vibe]; every
    statistic element on the page then shows its figure: the number of
    cells, the three sums, and the sum of the vibes divided by the number
    of cells. *)
Theorem updateStats_displays_sums :
  (forall (scores : option vibe_scores) (grid : value) (d : dom),
     truthy grid = false -> updateStats scores grid d = d) /\
  (forall (scores : vibe_scores) (grid : value) (d : dom),
     truthy grid = true ->
     cells scores <> ∅ ->
     let cellDatas := Object_values (cells scores) in
     let regions := of_nat (size (cells scores)) in
     exists events avg noise progress : Q,
       (events == sum_of (fun c => or_zero (count c)) cellDatas)%Q /\
       (noise == sum_of (fun c => or_zero (noise_count c)) cellDatas)%Q /\
       (progress
          == sum_of (fun c => or_zero (progress_count c)) cellDatas)%Q /\
       (avg == sum_of vibe cellDatas / regions)%Q /\
       forall (id : string) (el : element),
         d !! id = Some el ->
         exists el' : element,
           updateStats (Some scores) grid d !! id = Some el' /\
           (id = "statRegions" \/ id = "statRegionsMobile" ->
              textContent el' = toLocaleString (Fin regions)) /\
           (id = "statEvents" ->
              textContent el' = toLocaleString (Fin events)) /\
           (id = "statAvgVibe" \/ id = "statAvgVibeSide" ->
              textContent el' = toFixed (Fin avg) 3) /\
           (id = "statNoise" ->
              textContent el' = toLocaleString (Fin noise)) /\
           (id = "statProgress" ->
              textContent el' = toLocaleString (Fin progress))).
Proof.
  split.
  { intros [scores|] grid d Hgrid; [|reflexivity].
    unfold updateStats. by rewrite Hgrid. }
  intros scores grid d Hgrid Hcells cellDatas regions.
  destruct (scan_sums cellDatas) as (E1 & E2 & E3 & E4).
  assert (Hn : ~ (regions == 0)%Q).
  { apply of_nat_nonzero. by apply map_size_non_empty_iff. }
  exists (totalEvents (scan cellDatas)),
         (totalVibe (scan cellDatas) / regions)%Q,
         (totalNoise (scan cellDatas)), (totalProgress (scan cellDatas)).
  repeat split; try assumption.
  { by rewrite E2. }
  intros id el Hd. unfold updateStats. rewrite Hgrid. cbv zeta. simpl negb.
  cbv iota. rewrite length_Object_keys.
  fold cellDatas. fold regions.
  rewrite (js_div_nonzero _ _ Hn).
  set (d' := set_textContent "statRegionsMobile" _ _).
  assert (Hlast : forall d0 : dom,
    match generated_at scores with
    | Some date =>
        if negb (String.eqb date "")
        then set_textContent "lastUpdated" (toLocaleTimeString date) d0
        else d0
    | None => d0
    end !! id
    = if decide (id = "lastUpdated")
      then match generated_at scores with
           | Some date =>
               if negb (String.eqb date "")
               then with_text (toLocaleTimeString date) <$> d0 !! id
               else d0 !! id
           | None => d0 !! id
           end
      else d0 !! id).
  { intros d0. destruct (generated_at scores) as [date|];
      [destruct (negb (String.eqb date ""))|];
      rewrite ?lookup_set_textContent; repeat case_decide; congruence. }
  rewrite Hlast. subst d'.
  split_id id "statRegions";
    [|split_id id "statRegionsMobile";
      [|split_id id "statEvents";
        [|split_id id "statAvgVibe";
          [|split_id id "statAvgVibeSide";
            [|split_id id "statNoise";
              [|split_id id "statProgress"]]]]]];
  repeat (case_decide; try discriminate; try congruence);
  dom_lookups; rewrite ?Hd;
  try (destruct (generated_at scores) as [date|];
       [destruct (negb (String.eqb date ""))|]);
  rewrite ?Hd; simpl;
  (eexists; split; [reflexivity|]);
  repeat split; intros; simpl;
  repeat match goal with
  | H : _ \/ _ |- _ => destruct H
  end;
  try discriminate; try congruence; try done.
Qed.

(* ====================================================================== *)
(** * Properties: the reconstructed stream                                  *)
(* ====================================================================== *)

(** [push] appends what the reader still holds, in order, and closes. *)
Lemma push_drains (r : reader) (c : controller) :
  push r c = {| queue := queue c ++ r; closed := true |}.
Proof.
  funelim (push r c); clear Heqcall; destruct r as [|? ?];
    try discriminate.
  - injection E as -> ->. rewrite H. unfold enqueue. simpl.
    by rewrite <- app_assoc.
  - unfold close. by rewrite app_nil_r.
Qed.

Lemma combinedStream_drains (value : chunk) (r : reader) :
  combinedStream value r = {| queue := value :: r; closed := true |}.
Proof. unfold combinedStream. by rewrite push_drains. Qed.

(** C2.  After the first [read] has taken the first chunk of a body, the
    stream built from that chunk and from the reader holds the chunks of
    the body, all of them and in their order, and is closed. *)
Theorem combinedStream_same_chunks :
  forall (first : chunk) (rest : list chunk),
    read (getReader (first :: rest)) = (Some first, rest) /\
    combinedStream first rest
    = {| queue := first :: rest; closed := true |}.
Proof.
  intros first rest. split; [reflexivity|].
  apply combinedStream_drains.
Qed.

(* ====================================================================== *)
(** * Properties: fetchWithDecompress                                       *)
(* ====================================================================== *)

Lemma after_after (e1 e2 : list event) (w : world) :
  after e2 (after e1 w) = after (e1 ++ e2) w.
Proof. unfold after. simpl. by rewrite <- app_assoc. Qed.

Lemma after_nil (w : world) : after [] w = w.
Proof. destruct w. unfold after. simpl. by rewrite app_nil_r. Qed.

Lemma fetch_run (url : string) (options : fetch_options) (w : world) :
  fetch url options w
  = (match network (trace w) url options with
     | Some r => Return r
     | None => Throw TypeError
     end, after [EFetch url options] w).
Proof. unfold fetch. by destruct (network _ _ _). Qed.

Lemma json_run (stream : list chunk) (w : world) :
  json stream w
  = (parsed (concat stream), after [EJsonParse (concat stream)] w).
Proof.
  unfold json, parsed, mbind, M_bind, log. simpl.
  by destruct (JSON_parse _).
Qed.

Lemma pipeThrough_gzip_run (stream : list chunk) (w : world) :
  pipeThrough_gzip stream w
  = (match gunzip (concat stream) with
     | Some data => Return [data]
     | None => Throw TypeError
     end, after [EDecompress (concat stream)] w).
Proof.
  unfold pipeThrough_gzip, mbind, M_bind, log. simpl.
  by destruct (gunzip _).
Qed.

(** The run on a response that is ok. *)
Lemma fetchWithDecompress_ok_run
    (url : string) (options : fetch_options) (w : world) (r : response) :
  network (trace w) (fetchUrl_of url) options = Some r ->
  ok r = true ->
  fetchWithDecompress url options w
  = match body r with
    | [] => (Return VNull, after [EFetch (fetchUrl_of url) options] w)
    | first :: rest =>
        let data := concat (first :: rest) in
        if gzip_magic first then
          match gunzip data with
          | None =>
              (Throw corrupted,
               after [EFetch (fetchUrl_of url) options; EDecompress data] w)
          | Some text =>
              (match JSON_parse text with
               | Some v => Return v
               | None => Throw corrupted
               end,
               after [EFetch (fetchUrl_of url) options; EDecompress data;
                      EJsonParse text] w)
          end
        else
          (parsed data,
           after [EFetch (fetchUrl_of url) options; EJsonParse data] w)
    end.
Proof.
  intros Hnet Hok.
  unfold fetchWithDecompress. fold (fetchUrl_of url).
  unfold mbind at 1. unfold M_bind at 1.
  rewrite fetch_run, Hnet, Hok. cbn [negb]. cbv zeta. unfold getReader.
  destruct (body r) as [|first rest]; [reflexivity|].
  cbn [read].
  rewrite combinedStream_drains. cbn [queue].
  fold (gzip_magic first). destruct (gzip_magic first).
  - unfold try_catch, mbind, M_bind.
    rewrite pipeThrough_gzip_run.
    destruct (gunzip (concat (first :: rest))) as [text|]; cbv beta iota.
    + rewrite json_run, after_after, after_after. simpl concat.
      rewrite app_nil_r. unfold parsed.
      by destruct (JSON_parse text).
    + by rewrite after_after.
  - by rewrite json_run, after_after.
Qed.

Lemma byte_is_true (v : option byte) (b : byte) :
  byte_is v b = true <-> v = Some b.
Proof.
  destruct v as [x|]; simpl; [|split; discriminate].
  split.
  - intros H. f_equal. by apply byte_dec_bl.
  - intros [= ->]. by apply byte_dec_lb.
Qed.

Lemma gzip_magic_true (first : chunk) :
  gzip_magic first = true
  <-> first !! 0%nat = Some x1f /\ first !! 1%nat = Some x8b.
Proof.
  unfold gzip_magic. by rewrite andb_true_iff, !byte_is_true.
Qed.

Lemma gzip_magic_short (first : chunk) :
  (length first < 2)%nat -> gzip_magic first = false.
Proof.
  intros Hlen. apply not_true_iff_false. rewrite gzip_magic_true.
  intros [_ H1]. apply lookup_lt_Some in H1. lia.
Qed.

(** The run on a response that is not ok. *)
Lemma fetchWithDecompress_not_ok_run
    (url : string) (options : fetch_options) (w : world) (r : response) :
  network (trace w) (fetchUrl_of url) options = Some r ->
  ok r = false ->
  fetchWithDecompress url options w
  = if useGzip CONFIG then
      let first_request := EFetch (url +:+ ".gz") options in
      match network (trace w ++ [first_request]) url options with
      | None =>
          (Throw TypeError, after [first_request; EFetch url options] w)
      | Some fallback =>
          if ok fallback then
            (parsed (concat (body fallback)),
             after [first_request; EFetch url options;
                    EJsonParse (concat (body fallback))] w)
          else
            (Throw (http_error fallback),
             after [first_request; EFetch url options] w)
      end
    else (Throw (http_error r), after [EFetch url options] w).
Proof.
  intros Hnet Hok.
  unfold fetchWithDecompress. fold (fetchUrl_of url).
  unfold mbind at 1. unfold M_bind at 1.
  rewrite fetch_run, Hnet, Hok. cbn [negb].
  unfold fetchUrl_of. destruct (useGzip CONFIG); [|reflexivity].
  cbv zeta. unfold mbind, M_bind. rewrite fetch_run. cbn [after trace].
  destruct (network _ url options) as [fallback|].
  - destruct (ok fallback); cbn [negb].
    + by rewrite json_run, !after_after.
    + unfold throw. by rewrite after_after.
  - by rewrite after_after.
Qed.

(** C1.  On an ok response whose body has a first chunk, the run
    decompresses exactly when the first two bytes of that chunk are 0x1f
    and 0x8b: then it hands the whole byte stream to the decompressor, and
    returns the JSON of the decompressed text, or throws an error whose
    message begins with CORRUPTED_GZIP when the decompression fails;
    otherwise it parses the byte stream itself as JSON. *)
Theorem fetchWithDecompress_gzip_detection :
  forall (url : string) (options : fetch_options) (w : world) (r : response)
         (first : chunk) (rest : list chunk),
    network (trace w) (fetchUrl_of url) options = Some r ->
    ok r = true ->
    body r = first :: rest ->
    let data := concat (first :: rest) in
    let magic := first !! 0%nat = Some x1f /\ first !! 1%nat = Some x8b in
    exists events : list event,
      (fetchWithDecompress url options w).2
      = after (EFetch (fetchUrl_of url) options :: events) w /\
      ((exists d, EDecompress d ∈ events) <-> magic) /\
      (magic ->
         EDecompress data ∈ events /\
         (forall text, gunzip data = Some text ->
            EJsonParse text ∈ events /\
            (fetchWithDecompress url options w).1
            = match JSON_parse text with
              | Some v => Return v
              | None => Throw corrupted
              end) /\
         (gunzip data = None ->
            exists message,
              (fetchWithDecompress url options w).1 = Throw (Error message) /\
              String.prefix "CORRUPTED_GZIP" message = true)) /\
      (~ magic ->
         events = [EJsonParse data] /\
         (fetchWithDecompress url options w).1 = parsed data).
Proof.
  intros url options w r first rest Hnet Hok Hbody data magic.
  rewrite (fetchWithDecompress_ok_run _ _ _ _ Hnet Hok), Hbody.
  cbv zeta. fold data.
  destruct (gzip_magic first) eqn:Hmagic.
  - assert (Hm : magic) by by apply gzip_magic_true.
    destruct (gunzip data) as [text|] eqn:Hgz.
    + exists [EDecompress data; EJsonParse text]. simpl.
      split; [reflexivity|].
      split; [split; [done|]; intros _; exists data; repeat constructor|].
      split; [|done].
      intros _. split; [repeat constructor|]. split; [|discriminate].
      intros ? [= <-]. split; [repeat constructor|]. done.
    + exists [EDecompress data]. simpl.
      split; [reflexivity|].
      split; [split; [done|]; intros _; exists data; repeat constructor|].
      split; [|done].
      intros _. split; [repeat constructor|]. split; [discriminate|].
      intros _. eexists. split; reflexivity.
  - assert (Hm : ~ magic).
    { intros Hm. apply gzip_magic_true in Hm. congruence. }
    exists [EJsonParse data]. simpl.
    split; [reflexivity|]. split.
    { split; [|done]. intros [d Hd].
      apply list_elem_of_singleton in Hd. discriminate. }
    split; done.
Qed.

(** C3.  With gzip fetching enabled and a response to the '.gz' request
    that is not ok, the uncompressed URL is requested next; an ok response
    to it is parsed as JSON and gives the result, and the run throws an
    HTTP error exactly when that second response is not ok either.  With
    gzip fetching disabled, a response that is not ok throws its HTTP error
    after this one request. *)
Theorem fetchWithDecompress_fallback :
  (forall (url : string) (options : fetch_options) (w : world) (r : response),
     useGzip CONFIG = true ->
     network (trace w) (url +:+ ".gz") options = Some r ->
     ok r = false ->
     let first_request := EFetch (url +:+ ".gz") options in
     let fallback := network (trace w ++ [first_request]) url options in
     (exists events : list event,
        (fetchWithDecompress url options w).2
        = after (first_request :: EFetch url options :: events) w) /\
     (forall fallbackResponse,
        fallback = Some fallbackResponse ->
        ok fallbackResponse = true ->
        (fetchWithDecompress url options w).1
        = parsed (concat (body fallbackResponse))) /\
     (forall fallbackResponse,
        fallback = Some fallbackResponse ->
        ok fallbackResponse = false ->
        fetchWithDecompress url options w
        = (Throw (http_error fallbackResponse),
           after [first_request; EFetch url options] w)) /\
     (is_http_error (fetchWithDecompress url options w).1
      <-> exists fallbackResponse,
            fallback = Some fallbackResponse /\
            ok fallbackResponse = false)) /\
  (forall (url : string) (options : fetch_options) (w : world) (r : response),
     useGzip CONFIG = false ->
     network (trace w) url options = Some r ->
     ok r = false ->
     fetchWithDecompress url options w
     = (Throw (http_error r), after [EFetch url options] w)).
Proof.
  split.
  - intros url options w r Hgz Hnet Hok first_request fallback.
    assert (Hnet' : network (trace w) (fetchUrl_of url) options = Some r).
    { unfold fetchUrl_of. by rewrite Hgz. }
    rewrite (fetchWithDecompress_not_ok_run _ _ _ _ Hnet' Hok), Hgz.
    cbv zeta. fold first_request. fold fallback.
    destruct fallback as [fb|].
    + destruct (ok fb) eqn:Hfb.
      * split; [by eexists|]. split; [by intros ? [= <-] _|].
        split; [intros ? [= <-]; congruence|].
        split.
        -- intros [status H]. simpl in H. unfold parsed in H.
           destruct (JSON_parse _); discriminate.
        -- intros (fb' & [= <-] & ?). congruence.
      * split; [by eexists|]. split; [intros ? [= <-]; congruence|].
        split; [by intros ? [= <-] _|].
        split; [by eauto|].
        intros _. by exists (status fb).
    + split; [by eexists|]. split; [discriminate|]. split; [discriminate|].
      split.
      * intros [status H]. discriminate.
      * intros (fb' & ? & _). discriminate.
  - intros url options w r Hgz Hnet Hok.
    assert (Hnet' : network (trace w) (fetchUrl_of url) options = Some r).
    { unfold fetchUrl_of. by rewrite Hgz. }
    by rewrite (fetchWithDecompress_not_ok_run _ _ _ _ Hnet' Hok), Hgz.
Qed.

(** C10.  On an ok response with an empty body the run returns [null]
    after its one request: nothing is parsed and nothing is thrown.  On an
    ok response whose first chunk has fewer than two bytes the body is taken
    as not compressed: it is parsed as it is, and nothing is decompressed. *)
Theorem fetchWithDecompress_empty_or_short :
  forall (url : string) (options : fetch_options) (w : world) (r : response),
    network (trace w) (fetchUrl_of url) options = Some r ->
    ok r = true ->
    (body r = [] ->
       fetchWithDecompress url options w
       = (Return VNull, after [EFetch (fetchUrl_of url) options] w)) /\
    (forall (first : chunk) (rest : list chunk),
       body r = first :: rest ->
       (length first < 2)%nat ->
       gzip_magic first = false /\
       fetchWithDecompress url options w
       = (parsed (concat (first :: rest)),
          after [EFetch (fetchUrl_of url) options;
                 EJsonParse (concat (first :: rest))] w)).
Proof.
  intros url options w r Hnet Hok.
  rewrite (fetchWithDecompress_ok_run _ _ _ _ Hnet Hok).
  split.
  - by intros ->.
  - intros first rest -> Hlen. cbv zeta.
    by rewrite (gzip_magic_short _ Hlen).
Qed.

(* ====================================================================== *)
(** * Properties: the decorated grid                                        *)
(* ====================================================================== *)

Lemma pretty_N_char_digit (x : N) : is_digit (pretty_N_char x) = true.
Proof. unfold pretty_N_char. by repeat case_match. Qed.

Lemma pretty_N_go_digits (x : N) (s : string) :
  all_digits s = true -> all_digits (pretty_N_go x s) = true.
Proof.
  revert s. induction (N.lt_wf_0 x) as [x _ IH]; intros s Hs.
  assert (x = 0 \/ 0 < x)%N as [->|Hx] by lia.
  - by rewrite pretty_N_go_0.
  - rewrite pretty_N_go_step by done. apply IH.
    + by apply N.div_lt.
    + simpl. by rewrite pretty_N_char_digit.
Qed.

(** The index of an array prints as digits: it is none of the property
    names the loaders read. *)
Lemma pretty_nat_digits (i : nat) : all_digits (pretty i) = true.
Proof.
  unfold pretty, pretty_nat, pretty, pretty_N.
  case_decide; [reflexivity|]. by apply pretty_N_go_digits.
Qed.

Lemma indexed_lookup_name (l : list value) (name : string) :
  all_digits name = false -> indexed l !! name = None.
Proof.
  intros Hname. unfold indexed. apply not_elem_of_list_to_map_1.
  intros Hin. apply list_elem_of_fmap in Hin as ([k v] & -> & Hin).
  apply elem_of_lookup_imap in Hin as (i & x & [= -> ->] & _).
  simpl in Hname. by rewrite pretty_nat_digits in Hname.
Qed.

(** Reading a property that is no index agrees with the own properties
    [spread] copies. *)
Lemma js_get_spread (v o : value) (name : string) :
  all_digits name = false ->
  name <> "length" ->
  js_get v name = Return o ->
  default VUndefined (spread v !! name) = o.
Proof.
  intros Hname Hlen.
  destruct v; simpl; try discriminate; intros [= <-]; try done.
  - rewrite indexed_lookup_name by done.
    destruct (String.eqb_spec name "length"); done.
  - rewrite indexed_lookup_name by done.
    destruct (String.eqb_spec name "length"); done.
Qed.

Lemma mapM_Return {A B} (f : A -> outcome B) (l : list A) (l' : list B) :
  mapM f l = Return l' ->
  length l' = length l /\
  forall (i : nat) (x : A),
    l !! i = Some x -> exists y, l' !! i = Some y /\ f x = Return y.
Proof.
  revert l'. induction l as [|x l IH]; intros l'; simpl.
  - intros [= <-]. split; [done|]. intros i x. by rewrite lookup_nil.
  - destruct (f x) as [y|] eqn:Hx; [|discriminate].
    destruct (mapM f l) as [ys|]; [|discriminate].
    intros [= <-]. destruct (IH ys eq_refl) as [Hlen Hall].
    split; [simpl; by rewrite Hlen|].
    intros [|i] x'; simpl.
    + intros [= <-]. by exists y.
    + apply Hall.
Qed.

(** What [decorate] builds. *)
Lemma decorate_Return (feature feature' : value) :
  decorate feature = Return feature' ->
  exists (decorated properties' : gmap string value)
         (id feature_properties : value),
    feature' = VObj decorated /\
    js_get feature "id" = Return id /\
    js_get feature "properties" = Return feature_properties /\
    decorated !! "properties" = Some (VObj properties') /\
    properties' !! "h3_index" = Some id /\
    js_get feature' "id" = Return id /\
    (forall name, name <> "h3_index" ->
       properties' !! name = spread feature_properties !! name) /\
    (forall name, name <> "properties" ->
       decorated !! name = spread feature !! name).
Proof.
  unfold decorate.
  destruct (js_get feature "properties") as [fp|] eqn:Hfp; [|discriminate].
  destruct (js_get feature "id") as [id|] eqn:Hid; [|discriminate].
  intros [= <-].
  eexists _, _, id, fp. split; [reflexivity|].
  split; [done|]. split; [done|].
  split; [by rewrite lookup_insert_eq|].
  split; [by rewrite lookup_insert_eq|].
  split.
  { simpl. rewrite lookup_insert_ne by done. f_equal.
    by apply js_get_spread. }
  split; intros name Hname; by rewrite lookup_insert_ne.
Qed.

Lemma decorate_features_Return (grid grid' : value) :
  decorate_features grid = Return grid' ->
  exists (properties : gmap string value) (features features' : list value),
    grid = VObj properties /\
    properties !! "features" = Some (VArr features) /\
    grid' = VObj (<["features" := VArr features']> properties) /\
    mapM decorate features = Return features'.
Proof.
  unfold decorate_features.
  destruct (js_get grid "features") as [fs|] eqn:Hfs; [|discriminate].
  unfold Array_map. destruct fs as [| | | | |features|]; try discriminate.
  destruct (mapM decorate features) as [features'|] eqn:Hmap;
    [|discriminate].
  destruct grid as [| | | | | |properties]; try discriminate.
  intros [= <-]. exists properties, features, features'.
  repeat split; try done.
  simpl in Hfs. injection Hfs as Hfs.
  destruct (properties !! "features") as [v|]; simpl in Hfs; by subst.
Qed.

(** C8.  When [loadCoreGrid] returns, the grid it returns is the fetched
    grid with its [features] replaced by as many features in the same
    order, where each new feature has in its [properties] an [h3_index]
    that is the feature's [id], every other entry of [properties] as the
    old feature had it, and every member other than [properties] as the old
    feature had it. *)
Theorem loadCoreGrid_h3_index :
  forall (file : value) (w w' : world) (grid' : value),
    loadCoreGrid file w = (Return grid', w') ->
    exists (url : string) (w0 w1 : world)
           (grid : gmap string value) (features features' : list value),
      fetchWithDecompress url {| cache := Some "force-cache" |} w0
      = (Return (VObj grid), w1) /\
      grid !! "features" = Some (VArr features) /\
      grid' = VObj (<["features" := VArr features']> grid) /\
      length features' = length features /\
      forall (i : nat) (feature : value),
        features !! i = Some feature ->
        exists (feature' properties' : gmap string value)
               (id feature_properties : value),
          features' !! i = Some (VObj feature') /\
          js_get feature "id" = Return id /\
          js_get feature "properties" = Return feature_properties /\
          feature' !! "properties" = Some (VObj properties') /\
          properties' !! "h3_index" = Some id /\
          js_get (VObj feature') "id" = Return id /\
          (forall name, name <> "h3_index" ->
             properties' !! name = spread feature_properties !! name) /\
          (forall name, name <> "properties" ->
             feature' !! name = spread feature !! name).
Proof.
  intros file w w' grid' Hrun.
  unfold loadCoreGrid, updateLoadingText, modify_page in Hrun.
  unfold mbind at 1 in Hrun. unfold M_bind at 1 in Hrun.
  unfold try_catch, mbind, M_bind, mret, M_ret, lift, throw in Hrun.
  destruct (js_get file "available_files") as [available_files|];
    [|discriminate].
  destruct (js_get available_files "core_grid") as [gridFile|];
    [|discriminate].
  destruct (cleanPath_of gridFile) as [cleanPath|]; [|discriminate].
  match type of Hrun with
  | context [fetchWithDecompress ?u ?o ?w0] =>
      destruct (fetchWithDecompress u o w0) as [[grid|] w1] eqn:Hfetch;
      [exists u, w0, w1|discriminate]
  end.
  destruct (decorate_features grid) as [decorated|] eqn:Hdec; [|discriminate].
  destruct (js_get decorated "metadata") as [grid_metadata|]; [|discriminate].
  destruct (js_get grid_metadata "resolution"); [|discriminate].
  injection Hrun as <- <-.
  apply decorate_features_Return in Hdec
    as (properties & features & features' & -> & Hfs & -> & Hmap).
  apply mapM_Return in Hmap as [Hlen Hall].
  exists properties, features, features'.
  repeat split; try done.
  intros i feature Hi.
  destruct (Hall i feature Hi) as (feature' & Hi' & Hd).
  apply decorate_Return in Hd
    as (decorated & properties' & id & fp & -> & H1 & H2 & H3 & H4 & H5 & H6).
  exists decorated, properties', id, fp. by rewrite Hi'.
Qed.

(* ====================================================================== *)
(** * Properties: loadAllData                                               *)
(* ====================================================================== *)

Lemma attempts_nonempty (url : string) (urls : list string) :
  attempts url urls -> urls <> [].
Proof.
  unfold attempts. destruct (useGzip CONFIG); intros H; [destruct H|];
    subst; discriminate.
Qed.

Lemma fetchWithDecompress_requests
    (url : string) (options : fetch_options) (w : world) :
  exists events : list event,
    (fetchWithDecompress url options w).2 = after events w /\
    attempts url (requests events).
Proof.
  destruct (network (trace w) (fetchUrl_of url) options) as [r|] eqn:Hnet.
  - destruct (ok r) eqn:Hok.
    + rewrite (fetchWithDecompress_ok_run _ _ _ _ Hnet Hok).
      unfold attempts, fetchUrl_of. cbv zeta.
      destruct (body r) as [|first rest];
        [|destruct (gzip_magic first);
          [destruct (gunzip _)|]];
        eexists; (split; [reflexivity|]);
        destruct (useGzip CONFIG); simpl; auto.
    + rewrite (fetchWithDecompress_not_ok_run _ _ _ _ Hnet Hok).
      unfold attempts. cbv zeta.
      destruct (useGzip CONFIG);
        [destruct (network _ url options) as [fb|]; [destruct (ok fb)|]|];
        eexists; (split; [reflexivity|]); simpl; auto.
  - unfold fetchWithDecompress. fold (fetchUrl_of url).
    unfold mbind, M_bind. rewrite fetch_run, Hnet.
    eexists; split; [reflexivity|].
    unfold attempts, fetchUrl_of. destruct (useGzip CONFIG); simpl; auto.
Qed.

Lemma loadMetadata_requests (w : world) :
  exists events : list event,
    (loadMetadata w).2 = after events w /\
    attempts (dataBaseUrl CONFIG +:+ "/metadata.json") (requests events) /\
    forall e, (loadMetadata w).1 = Throw e -> e = metadata_error.
Proof.
  unfold loadMetadata, try_catch, throw.
  destruct (fetchWithDecompress_requests
              (dataBaseUrl CONFIG +:+ "/metadata.json")
              {| cache := None |} w) as (events & Hw & Hreq).
  exists events.
  destruct (fetchWithDecompress _ _ w) as [[m|e] w1]; simpl in *;
    split_and!; try done.
  by intros ? [= <-].
Qed.

Lemma loadCoreGrid_requests (file : value) (w : world) :
  exists events : list event,
    trace (loadCoreGrid file w).2 = trace w ++ events /\
    st (loadCoreGrid file w).2 = st w /\
    (forall e, (loadCoreGrid file w).1 = Throw e -> e = grid_error) /\
    ((events = [] /\ forall g, (loadCoreGrid file w).1 <> Return g) \/
     exists cleanPath : string,
       grid_path file = Return cleanPath /\
       attempts (dataBaseUrl CONFIG +:+ "/" +:+ cleanPath)
                (requests events)).
Proof.
  unfold loadCoreGrid, updateLoadingText, modify_page, grid_path.
  unfold mbind at 1. unfold M_bind at 1.
  unfold try_catch, mbind, M_bind, mret, M_ret, lift, throw.
  destruct (js_get file "available_files") as [available_files|];
    [|exists []; simpl; rewrite app_nil_r; split_and!;
      [done|done|by intros ? [= <-]|by left]].
  destruct (js_get available_files "core_grid") as [gridFile|];
    [|exists []; simpl; rewrite app_nil_r; split_and!;
      [done|done|by intros ? [= <-]|by left]].
  destruct (cleanPath_of gridFile) as [cleanPath|];
    [|exists []; simpl; rewrite app_nil_r; split_and!;
      [done|done|by intros ? [= <-]|by left]].
  match goal with
  | |- context [fetchWithDecompress ?u ?o ?w0] =>
      destruct (fetchWithDecompress_requests u o w0)
        as (events & Hw & Hreq);
      destruct (fetchWithDecompress u o w0) as [[grid|e] w1]
  end; simpl in Hw; subst w1; exists events.
  - destruct (decorate_features grid) as [decorated|];
      [destruct (js_get decorated "metadata") as [grid_metadata|];
        [destruct (js_get grid_metadata "resolution")|]|];
      simpl; split_and!; try done; try (by intros ? [= <-]);
      right; by exists cleanPath.
  - simpl; split_and!; try done; try (by intros ? [= <-]);
    right; by exists cleanPath.
Qed.

Lemma loadVibeScores_requests (w : world) :
  exists events : list event,
    trace (loadVibeScores w).2 = trace w ++ events /\
    metadata (st (loadVibeScores w).2) = metadata (st w) /\
    attempts (dataBaseUrl CONFIG +:+ "/vibe_scores.json") (requests events) /\
    forall e, (loadVibeScores w).1 = Throw e -> e = scores_error.
Proof.
  unfold loadVibeScores, updateLoadingText, modify_page.
  unfold mbind at 1. unfold M_bind at 1.
  unfold try_catch, mbind, M_bind, mret, M_ret, lift, throw, modify.
  match goal with
  | |- context [fetchWithDecompress ?u ?o ?w0] =>
      destruct (fetchWithDecompress_requests u o w0)
        as (events & Hw & Hreq);
      destruct (fetchWithDecompress u o w0) as [[data|e] w1]
  end; simpl in Hw; subst w1; exists events;
    [|simpl; split_and!; try done; by intros ? [= <-]].
  destruct (js_get data "pulse") as [data_pulse|];
    [|simpl; split_and!; try done; by intros ? [= <-]].
  destruct (js_get data "insights") as [data_insights|];
    [|simpl; split_and!; try done; by intros ? [= <-]].
  destruct (js_get data "cells") as [data_cells|];
    [|simpl; split_and!; try done; by intros ? [= <-]].
  destruct (Object_keys_check data_cells);
    simpl; split_and!; try done; by intros ? [= <-].
Qed.

(** With a metadata that names the grid file, [loadCoreGrid] requests the
    file. *)
Lemma loadCoreGrid_fetches (file : value) (w : world) (cleanPath : string) :
  grid_path file = Return cleanPath ->
  exists events : list event,
    trace (loadCoreGrid file w).2 = trace w ++ events /\
    attempts (dataBaseUrl CONFIG +:+ "/" +:+ cleanPath) (requests events).
Proof.
  intros Hpath.
  destruct (loadCoreGrid_requests file w)
    as (events & Htrace & _ & _ & [[-> _] | (cleanPath' & Hpath' & Hatt)]).
  - revert Hpath Htrace.
    unfold loadCoreGrid, updateLoadingText, modify_page, grid_path.
    unfold mbind at 1. unfold M_bind at 1.
    unfold try_catch, mbind, M_bind, mret, M_ret, lift, throw.
    destruct (js_get file "available_files") as [available_files|];
      [|discriminate].
    destruct (js_get available_files "core_grid") as [gridFile|];
      [|discriminate].
    intros ->.
    match goal with
    | |- context [fetchWithDecompress ?u ?o ?w0] =>
        destruct (fetchWithDecompress_requests u o w0)
          as (events & Hw & Hreq);
        destruct (fetchWithDecompress u o w0) as [[grid|e] w1]
    end; cbn [snd] in Hw; subst w1.
    + destruct (decorate_features grid) as [decorated|];
        [destruct (js_get decorated "metadata") as [grid_metadata|];
          [destruct (js_get grid_metadata "resolution")|]|];
        cbn [snd trace after]; intros Htrace; exists events; done.
    + cbn [snd trace after]. intros Htrace. exists events. done.
  - rewrite Hpath in Hpath'. injection Hpath' as <-. by exists events.
Qed.

(** [loadVibeScores] does not write [state.coreGrid]. *)
Lemma loadVibeScores_coreGrid (w : world) :
  coreGrid (st (loadVibeScores w).2) = coreGrid (st w).
Proof.
  unfold loadVibeScores, updateLoadingText, modify_page.
  unfold mbind at 1. unfold M_bind at 1.
  unfold try_catch, mbind, M_bind, mret, M_ret, lift, throw, modify.
  match goal with
  | |- context [fetchWithDecompress ?u ?o ?w0] =>
      destruct (fetchWithDecompress_requests u o w0)
        as (events & Hw & _);
      destruct (fetchWithDecompress u o w0) as [[data|e] w1]
  end; simpl in Hw; subst w1; [|done].
  destruct (js_get data "pulse") as [data_pulse|]; [|done].
  destruct (js_get data "insights") as [data_insights|]; [|done].
  destruct (js_get data "cells") as [data_cells|]; [|done].
  by destruct (Object_keys_check data_cells).
Qed.

(** C6.  Whatever a run of [loadAllData] does, it ends with
    [state.isLoading] false.  Its requests come in three groups, one after
    the other.  The metadata is always requested.  When the load of the
    metadata throws, the run throws the error of that load and requests
    nothing more.  When it returns, the metadata is stored in
    [state.metadata] and [loadCoreGrid] runs next, on that metadata: the
    second group is what this run of [loadCoreGrid] adds to the trace, and
    it requests the grid file whenever the metadata names one.  When the
    load of the grid throws, the run throws the error of that load and
    requests nothing more.  When it returns, the grid is stored in
    [state.coreGrid] and [loadVibeScores] runs next: the third group is
    what this run adds to the trace, and the vibe scores are requested.
    The run returns, and returns true, exactly when the third load
    returns, with its document in [state.vibeScores]; otherwise it throws
    the error of the third load. *)
Theorem loadAllData_sequential :
  forall w : world,
    let w0 := {| st := set_isLoading true (st w); page := page w;
                 trace := trace w |} in
    isLoading (st (loadAllData w).2) = false /\
    exists em eg ev : list event,
      trace (loadAllData w).2 = trace w ++ em ++ eg ++ ev /\
      trace (loadMetadata w0).2 = trace w ++ em /\
      attempts (dataBaseUrl CONFIG +:+ "/metadata.json") (requests em) /\
      (requests eg <> [] ->
         (exists w1,
            loadMetadata w0
            = (Return (metadata (st (loadAllData w).2)), w1)) /\
         exists cleanPath : string,
           grid_path (metadata (st (loadAllData w).2)) = Return cleanPath /\
           attempts (dataBaseUrl CONFIG +:+ "/" +:+ cleanPath)
                    (requests eg)) /\
      (requests ev <> [] ->
         requests eg <> [] /\
         attempts (dataBaseUrl CONFIG +:+ "/vibe_scores.json")
                  (requests ev)) /\
      (forall b, (loadAllData w).1 = Return b ->
         b = true /\ requests eg <> [] /\ requests ev <> []) /\
      (forall e, (loadAllData w).1 = Throw e ->
         e = metadata_error \/ e = grid_error \/ e = scores_error) /\
      (forall e, (loadMetadata w0).1 = Throw e ->
         (loadAllData w).1 = Throw metadata_error /\ eg = [] /\ ev = []) /\
      (forall m, (loadMetadata w0).1 = Return m ->
         let w2 := {| st := set_metadata m (st (loadMetadata w0).2);
                      page := page (loadMetadata w0).2;
                      trace := trace (loadMetadata w0).2 |} in
         metadata (st (loadAllData w).2) = m /\
         trace (loadCoreGrid m w2).2 = trace w ++ em ++ eg /\
         (forall cleanPath : string,
            grid_path m = Return cleanPath ->
            attempts (dataBaseUrl CONFIG +:+ "/" +:+ cleanPath)
                     (requests eg)) /\
         (forall e, (loadCoreGrid m w2).1 = Throw e ->
            (loadAllData w).1 = Throw grid_error /\ ev = []) /\
         (forall g, (loadCoreGrid m w2).1 = Return g ->
            let w4 := {| st := set_coreGrid g (st (loadCoreGrid m w2).2);
                         page := page (loadCoreGrid m w2).2;
                         trace := trace (loadCoreGrid m w2).2 |} in
            coreGrid (st (loadAllData w).2) = g /\
            trace (loadVibeScores w4).2 = trace w ++ em ++ eg ++ ev /\
            attempts (dataBaseUrl CONFIG +:+ "/vibe_scores.json")
                     (requests ev) /\
            (forall e, (loadVibeScores w4).1 = Throw e ->
               (loadAllData w).1 = Throw scores_error) /\
            (forall v, (loadVibeScores w4).1 = Return v ->
               (loadAllData w).1 = Return true /\
               vibeScores (st (loadAllData w).2) = v))).
Proof.
  intros w w0.
  destruct (loadAllData w) as [r wf] eqn:Hrun. cbn [fst snd].
  unfold loadAllData, try_catch in Hrun.
  unfold mbind at 1 in Hrun. unfold M_bind at 1 in Hrun.
  unfold modify at 1 in Hrun. fold w0 in Hrun.
  unfold mbind at 1 in Hrun. unfold M_bind at 1 in Hrun.
  destruct (loadMetadata_requests w0) as (em & Hw1 & Hem & Herr1).
  destruct (loadMetadata w0) as [[m|e] w1] eqn:Hmeta;
    cbn [fst snd] in Hw1, Herr1 |- *; subst w1.
  2: { simpl in Hrun. injection Hrun as <- <-. simpl.
       split; [done|]. exists em, [], [].
       rewrite !app_nil_r. split_and!; try done.
       - intros ? [= <-]. left. by apply Herr1.
       - intros ? _. by rewrite (Herr1 e eq_refl). }
  unfold mbind at 1 in Hrun. unfold M_bind at 1 in Hrun.
  unfold modify at 1 in Hrun.
  unfold mbind at 1 in Hrun. unfold M_bind at 1 in Hrun.
  unfold get_state at 1 in Hrun.
  cbn [st metadata set_metadata] in Hrun.
  set (w2 := {| st := set_metadata m (st (after em w0));
                page := page (after em w0);
                trace := trace (after em w0) |}) in Hrun |- *.
  unfold mbind at 1 in Hrun. unfold M_bind at 1 in Hrun.
  destruct (loadCoreGrid_requests m w2) as (eg & Htg & Hsg & Herr2 & Hgrid).
  assert (Hfetch : forall cleanPath : string,
            grid_path m = Return cleanPath ->
            attempts (dataBaseUrl CONFIG +:+ "/" +:+ cleanPath)
                     (requests eg)).
  { intros cleanPath Hpath.
    destruct (loadCoreGrid_fetches m w2 cleanPath Hpath)
      as (events & Htrace & Hatt).
    rewrite Htg in Htrace. apply app_inv_head in Htrace. by subst events. }
  assert (Htw2 : trace w2 ++ eg = trace w ++ em ++ eg).
  { unfold w2, after, w0. cbn [trace]. by rewrite <- app_assoc. }
  destruct (loadCoreGrid m w2) as [[g|e] w3] eqn:Hcore;
    cbn [fst snd] in Htg, Hsg, Herr2, Hgrid |- *.
  2: { simpl in Hrun. injection Hrun as <- <-. cbn [st trace fst snd].
       split; [done|]. exists em, eg, [].
       rewrite Htg, app_nil_r, Hsg.
       assert (metadata (set_isLoading false (st w2)) = m) as Hm by done.
       rewrite Hm.
       split_and!; try done.
       - intros Heg. split; [by eexists|].
         destruct Hgrid as [[-> _]|Hgrid]; done.
       - intros ? [= <-]. right. left. by apply Herr2.
       - intros ? [= <-]. cbv zeta.
         change (loadCoreGrid m _) with (loadCoreGrid m w2).
         rewrite Hcore. cbn [fst snd].
         split_and!; try done.
         + by rewrite Htg.
         + intros ? _. by rewrite (Herr2 e eq_refl). }
  unfold mbind at 1 in Hrun. unfold M_bind at 1 in Hrun.
  unfold modify at 1 in Hrun.
  set (w4 := {| st := set_coreGrid g (st w3); page := page w3;
                trace := trace w3 |}) in Hrun |- *.
  unfold mbind at 1 in Hrun. unfold M_bind at 1 in Hrun.
  destruct (loadVibeScores_requests w4) as (ev & Htv & Hsv & Hev & Herr3).
  assert (Heg : requests eg <> []).
  { destruct Hgrid as [[_ Hno]|(cleanPath & _ & Hatt)].
    - by destruct (Hno g).
    - by eapply attempts_nonempty. }
  assert (Hm : metadata (st w4) = m).
  { unfold w4. cbn [st set_coreGrid metadata]. by rewrite Hsg. }
  assert (Hgp : exists cleanPath : string,
            grid_path m = Return cleanPath /\
            attempts (dataBaseUrl CONFIG +:+ "/" +:+ cleanPath)
                     (requests eg)).
  { destruct Hgrid as [[-> _]|Hgrid]; done. }
  assert (Htrace : trace w4 ++ ev = trace w ++ em ++ eg ++ ev).
  { unfold w4. cbn [trace]. rewrite Htg, Htw2. by rewrite <- !app_assoc. }
  assert (Hev' : requests ev <> []) by by eapply attempts_nonempty.
  assert (Hcg : coreGrid (st (loadVibeScores w4).2) = g)
    by by rewrite loadVibeScores_coreGrid.
  destruct (loadVibeScores w4) as [[v|e] w5] eqn:Hvibe;
    cbn [fst snd] in Htv, Hsv, Herr3, Hcg |- *;
    unfold mbind, M_bind, modify, mret, M_ret, throw in Hrun;
    injection Hrun as <- <-; cbn [st trace];
    (split; [done|]); exists em, eg, ev;
    cbn [isLoading set_isLoading set_vibeScores metadata coreGrid
         vibeScores];
    rewrite Htv, Hsv, Hm, Htrace, Hcg.
  - split_and!; try done.
    + intros _. split; [by eexists|done].
    + by intros b [= <-].
    + intros ? [= <-]. cbv zeta.
      change (loadCoreGrid m _) with (loadCoreGrid m w2).
      rewrite Hcore. cbn [fst snd].
      split_and!; try done.
      * by rewrite Htg.
      * intros ? [= <-]. cbv zeta.
        change (loadVibeScores _) with (loadVibeScores w4).
        rewrite Hvibe. cbn [fst snd].
        split_and!; try done.
        -- by rewrite Htv.
        -- by intros ? [= <-].
  - split_and!; try done.
    + intros _. split; [by eexists|done].
    + intros ? [= <-]. right. right. by apply Herr3.
    + intros ? [= <-]. cbv zeta.
      change (loadCoreGrid m _) with (loadCoreGrid m w2).
      rewrite Hcore. cbn [fst snd].
      split_and!; try done.
      * by rewrite Htg.
      * intros ? [= <-]. cbv zeta.
        change (loadVibeScores _) with (loadVibeScores w4).
        rewrite Hvibe. cbn [fst snd].
        split_and!; try done.
        -- by rewrite Htv.
        -- intros ? _. by rewrite (Herr3 e eq_refl).
Qed.

(* ====================================================================== *)
(** * Further properties: fetchWithDecompress                               *)
(* ====================================================================== *)

(** X1.  A call of [fetchWithDecompress] leaves [state] and the page as
    they are and makes one request, or two: the first to the URL with '.gz'
    when gzip fetching is enabled and to the URL itself otherwise, the
    second, if any, to the URL itself, and only with gzip enabled. *)
Theorem fetchWithDecompress_at_most_two_requests :
  forall (url : string) (options : fetch_options) (w : world),
    st (fetchWithDecompress url options w).2 = st w /\
    page (fetchWithDecompress url options w).2 = page w /\
    exists events : list event,
      trace (fetchWithDecompress url options w).2 = trace w ++ events /\
      (requests events = [fetchUrl_of url] \/
       useGzip CONFIG = true /\
       requests events = [url +:+ ".gz"; url]) /\
      (length (requests events) <= 2)%nat.
Proof.
  intros url options w.
  destruct (fetchWithDecompress_requests url options w)
    as (events & Hw & Hatt).
  rewrite Hw.
  split; [done|]. split; [done|]. exists events. split; [done|].
  unfold attempts, fetchUrl_of in *.
  destruct (useGzip CONFIG); [destruct Hatt as [-> | ->] | rewrite Hatt];
    simpl; split; auto.
Qed.

(** X2.  A request that fails (a rejected [fetch]) is not retried: when the
    first request fails the call throws after this one request, also with
    gzip fetching enabled; when the first response is not ok and the
    fallback request fails, the call throws after these two requests. *)
Theorem fetchWithDecompress_network_failure :
  (forall (url : string) (options : fetch_options) (w : world),
     network (trace w) (fetchUrl_of url) options = None ->
     fetchWithDecompress url options w
     = (Throw TypeError, after [EFetch (fetchUrl_of url) options] w)) /\
  (forall (url : string) (options : fetch_options) (w : world) (r : response),
     useGzip CONFIG = true ->
     network (trace w) (url +:+ ".gz") options = Some r ->
     ok r = false ->
     network (trace w ++ [EFetch (url +:+ ".gz") options]) url options
     = None ->
     fetchWithDecompress url options w
     = (Throw TypeError,
        after [EFetch (url +:+ ".gz") options; EFetch url options] w)).
Proof.
  split.
  - intros url options w Hnet.
    unfold fetchWithDecompress. fold (fetchUrl_of url).
    unfold mbind, M_bind. by rewrite fetch_run, Hnet.
  - intros url options w r Hgz Hnet Hok Hfb.
    assert (Hnet' : network (trace w) (fetchUrl_of url) options = Some r).
    { unfold fetchUrl_of. by rewrite Hgz. }
    rewrite (fetchWithDecompress_not_ok_run _ _ _ _ Hnet' Hok), Hgz.
    cbv zeta. by rewrite Hfb.
Qed.

Lemma gzip_magic_concat (first : chunk) (rest : list chunk) :
  (2 <= length first)%nat ->
  gzip_magic first
  = byte_is (concat (first :: rest) !! 0%nat) x1f
    && byte_is (concat (first :: rest) !! 1%nat) x8b.
Proof.
  intros Hlen. unfold gzip_magic. simpl.
  by rewrite !lookup_app_l by lia.
Qed.

Lemma fetchWithDecompress_decoded
    (url : string) (options : fetch_options) (w : world) (r : response)
    (first : chunk) (rest : list chunk) :
  network (trace w) (fetchUrl_of url) options = Some r ->
  ok r = true ->
  body r = first :: rest ->
  (2 <= length first)%nat ->
  fetchWithDecompress url options w
  = ((decoded (concat (body r))).1,
     after (EFetch (fetchUrl_of url) options
              :: (decoded (concat (body r))).2) w).
Proof.
  intros Hnet Hok Hbody Hlen.
  rewrite (fetchWithDecompress_ok_run _ _ _ _ Hnet Hok), Hbody.
  cbv zeta. unfold decoded.
  rewrite (gzip_magic_concat first rest Hlen).
  destruct (_ && _); [destruct (gunzip _)|]; reflexivity.
Qed.

(** X3.  How the network cuts an ok body into chunks does not matter, as
    long as the first chunk holds at least two bytes: the result and the
    events of the call are those of the bytes of the whole body, so two
    bodies with the same bytes give the same result. *)
Theorem fetchWithDecompress_chunking :
  forall (url : string) (options : fetch_options) (w w' : world)
         (r r' : response) (first first' : chunk) (rest rest' : list chunk),
    network (trace w) (fetchUrl_of url) options = Some r ->
    network (trace w') (fetchUrl_of url) options = Some r' ->
    ok r = true -> ok r' = true ->
    body r = first :: rest -> body r' = first' :: rest' ->
    (2 <= length first)%nat -> (2 <= length first')%nat ->
    concat (body r) = concat (body r') ->
    (fetchWithDecompress url options w).1
    = (fetchWithDecompress url options w').1 /\
    (fetchWithDecompress url options w).1 = (decoded (concat (body r))).1 /\
    exists events : list event,
      trace (fetchWithDecompress url options w).2 = trace w ++ events /\
      trace (fetchWithDecompress url options w').2 = trace w' ++ events.
Proof.
  intros url options w w' r r' first first' rest rest'
    Hnet Hnet' Hok Hok' Hbody Hbody' Hlen Hlen' Hsame.
  rewrite (fetchWithDecompress_decoded _ _ _ _ _ _ Hnet Hok Hbody Hlen).
  rewrite (fetchWithDecompress_decoded _ _ _ _ _ _ Hnet' Hok' Hbody' Hlen').
  rewrite <- Hsame. split; [done|]. split; [done|]. by eexists.
Qed.

(* ====================================================================== *)
(** * Further properties: the grid                                          *)
(* ====================================================================== *)

(** X4.  Decorating a decorated feature changes nothing: the [h3_index]
    is already the [id]. *)
Theorem decorate_idempotent :
  forall feature feature' : value,
    decorate feature = Return feature' ->
    decorate feature' = Return feature'.
Proof.
  intros feature feature'. unfold decorate at 1.
  destruct (js_get feature "properties") as [fp|] eqn:Hfp; [|discriminate].
  destruct (js_get feature "id") as [id|] eqn:Hid; [|discriminate].
  intros [= <-]. unfold decorate. cbn [js_get].
  rewrite lookup_insert_eq. simpl.
  rewrite lookup_insert_ne by done.
  rewrite (js_get_spread feature id "id" eq_refl ltac:(done) Hid).
  by rewrite !insert_insert_eq.
Qed.

Lemma decorate_throws (feature : value) :
  feature = VNull \/ feature = VUndefined ->
  decorate feature = Throw TypeError.
Proof. by intros [-> | ->]. Qed.

Lemma decorate_returns (feature : value) :
  feature <> VNull -> feature <> VUndefined ->
  exists feature', decorate feature = Return feature'.
Proof.
  intros H1 H2. unfold decorate.
  destruct feature; try done; simpl; by eexists.
Qed.

Lemma mapM_decorate_returns (features : list value) :
  (exists features', mapM decorate features = Return features')
  <-> Forall (fun feature => feature <> VNull /\ feature <> VUndefined)
             features.
Proof.
  induction features as [|feature features IH]; simpl.
  - split; [constructor | by eexists].
  - rewrite Forall_cons, <- IH. split.
    + intros [features' H].
      destruct (decorate feature) as [feature'|] eqn:Hd; [|discriminate].
      destruct (mapM decorate features) as [l|]; [|discriminate].
      split; [|by eexists].
      split; intros ->; discriminate.
    + intros [[H1 H2] [l Hl]].
      destruct (decorate_returns feature H1 H2) as [feature' ->].
      rewrite Hl. by eexists.
Qed.

Lemma mapM_decorate_throws (features : list value) (e : exn) :
  mapM decorate features = Throw e -> e = TypeError.
Proof.
  induction features as [|feature features IH]; simpl; [discriminate|].
  destruct (decorate feature) as [feature'|e'] eqn:Hd.
  - destruct (mapM decorate features); [discriminate|].
    intros [= <-]. by apply IH.
  - intros [= <-]. unfold decorate in Hd.
    destruct feature; simpl in Hd; congruence.
Qed.

(** X5.  The features of a fetched grid can be decorated exactly when the
    grid is an object whose [features] is an array without [null]: a
    single [null] among the features, [features] that is no array, or a
    grid that is no object fails the whole step, and always with a
    TypeError. *)
Theorem decorate_features_returns_iff :
  forall grid : value,
    ((exists grid', decorate_features grid = Return grid')
     <-> exists (properties : gmap string value) (features : list value),
           grid = VObj properties /\
           properties !! "features" = Some (VArr features) /\
           Forall (fun feature => feature <> VNull /\ feature <> VUndefined)
                  features) /\
    (forall e, decorate_features grid = Throw e -> e = TypeError).
Proof.
  intros grid. split.
  - split.
    + intros [grid' H].
      apply decorate_features_Return in H
        as (properties & features & features' & -> & Hfs & _ & Hmap).
      exists properties, features. split_and!; try done.
      apply mapM_decorate_returns. by eexists.
    + intros (properties & features & -> & Hfs & Hall).
      apply mapM_decorate_returns in Hall as [features' Hmap].
      unfold decorate_features. cbn [js_get]. rewrite Hfs. simpl.
      rewrite Hmap. by eexists.
  - intros e. unfold decorate_features.
    destruct (js_get grid "features") as [fs|e'] eqn:Hfs.
    + unfold Array_map.
      destruct fs as [| | | | |features|]; try (by intros [= <-]).
      destruct (mapM decorate features) as [l|e'] eqn:Hmap.
      * destruct grid; by intros [= <-].
      * intros [= <-]. by eapply mapM_decorate_throws.
    + intros [= <-]. destruct grid; simpl in Hfs; congruence.
Qed.

Lemma prefix_append (p s : string) : String.prefix p (p +:+ s) = true.
Proof.
  induction p as [|c p IH]; simpl; [by destruct s|].
  destruct (Ascii.ascii_dec c c); [done|congruence].
Qed.

Lemma substring_all (s : string) :
  String.substring 0 (String.length s) s = s.
Proof. induction s as [|c s IH]; simpl; [done|by rewrite IH]. Qed.

Lemma substring_append (p s : string) :
  String.substring (String.length p)
    (String.length (p +:+ s) - String.length p) (p +:+ s) = s.
Proof.
  induction p as [|c p IH]; simpl.
  - rewrite Nat.sub_0_r. apply substring_all.
  - apply IH.
Qed.

Lemma strip_prefix_append (p s : string) : strip_prefix p (p +:+ s) = s.
Proof. unfold strip_prefix. by rewrite prefix_append, substring_append. Qed.

Lemma strip_prefix_none (p s : string) :
  String.prefix p s = false -> strip_prefix p s = s.
Proof. unfold strip_prefix. by intros ->. Qed.

(** X6.  The path of the grid file: a leading 'core/' is dropped, and then a
    leading 'current/'; a path that starts with neither is taken as it is;
    anything that is not a string throws a TypeError. *)
Theorem cleanPath_of_prefixes :
  (forall rest : string,
     cleanPath_of (VStr ("core/" +:+ rest))
     = Return (strip_prefix "current/" rest)) /\
  (forall rest : string,
     cleanPath_of (VStr ("current/" +:+ rest)) = Return rest) /\
  (forall rest : string,
     cleanPath_of (VStr ("core/current/" +:+ rest)) = Return rest) /\
  (forall s : string,
     String.prefix "core/" s = false ->
     String.prefix "current/" s = false ->
     cleanPath_of (VStr s) = Return s) /\
  (forall v : value,
     (forall s, v <> VStr s) -> cleanPath_of v = Throw TypeError).
Proof.
  split_and!.
  - intros rest. unfold cleanPath_of.
    by rewrite (strip_prefix_append "core/" rest).
  - intros rest. unfold cleanPath_of.
    rewrite (strip_prefix_none "core/") by reflexivity.
    by rewrite (strip_prefix_append "current/" rest).
  - intros rest. unfold cleanPath_of.
    change ("core/current/" +:+ rest) with ("core/" +:+ ("current/" +:+ rest)).
    rewrite (strip_prefix_append "core/").
    by rewrite (strip_prefix_append "current/" rest).
  - intros s H1 H2. unfold cleanPath_of.
    by rewrite (strip_prefix_none _ _ H1), (strip_prefix_none _ _ H2).
  - intros v Hv. destruct v; try reflexivity. by destruct (Hv s).
Qed.

(* ====================================================================== *)
(** * Further properties: the loaders and the state                         *)
(* ====================================================================== *)

Lemma js_get_Return_not_nullish (v o : value) (name : string) :
  js_get v name = Return o -> ~ nullish v.
Proof. by intros H [-> | ->]. Qed.

Lemma js_get_nullish (v : value) (name : string) :
  nullish v -> js_get v name = Throw TypeError.
Proof. by intros [-> | ->]. Qed.

(** What a run of [loadCoreGrid] that returns has done. *)
Lemma loadCoreGrid_Return (file g : value) (w w' : world) :
  loadCoreGrid file w = (Return g, w') ->
  exists (cleanPath : string) (grid grid_metadata : value),
    grid_path file = Return cleanPath /\
    fetchWithDecompress (dataBaseUrl CONFIG +:+ "/" +:+ cleanPath)
      {| cache := Some "force-cache" |}
      (with_loading_text "Loading grid geometry..." w)
    = (Return grid, w') /\
    decorate_features grid = Return g /\
    js_get g "metadata" = Return grid_metadata /\
    ~ nullish grid_metadata.
Proof.
  intros Hrun.
  unfold loadCoreGrid, updateLoadingText, modify_page in Hrun.
  unfold mbind at 1 in Hrun. unfold M_bind at 1 in Hrun.
  fold (with_loading_text "Loading grid geometry..." w) in Hrun.
  unfold try_catch, mbind, M_bind, mret, M_ret, lift, throw in Hrun.
  unfold grid_path.
  destruct (js_get file "available_files") as [available_files|];
    [|discriminate].
  destruct (js_get available_files "core_grid") as [gridFile|];
    [|discriminate].
  destruct (cleanPath_of gridFile) as [cleanPath|]; [|discriminate].
  destruct (fetchWithDecompress _ _ _) as [[grid|] w1] eqn:Hfetch;
    [|discriminate].
  destruct (decorate_features grid) as [decorated|] eqn:Hdec; [|discriminate].
  destruct (js_get decorated "metadata") as [grid_metadata|] eqn:Hmd;
    [|discriminate].
  destruct (js_get grid_metadata "resolution") eqn:Hres; [|discriminate].
  injection Hrun as <- <-.
  exists cleanPath, grid, grid_metadata. split_and!; try done.
  by eapply js_get_Return_not_nullish.
Qed.

(** X7.  [loadCoreGrid] returns only a grid that has a [metadata] member:
    the message it logs reads [grid.metadata.resolution].  A grid file
    without that member, or with [null] there, is rejected with the error
    of the loader, although the file was fetched and its features could be
    decorated. *)
Theorem loadCoreGrid_needs_grid_metadata :
  (forall (file g : value) (w w' : world),
     loadCoreGrid file w = (Return g, w') ->
     exists grid_metadata : value,
       js_get g "metadata" = Return grid_metadata /\
       ~ nullish grid_metadata) /\
  (forall (file grid g : value) (w w1 : world) (cleanPath : string),
     grid_path file = Return cleanPath ->
     fetchWithDecompress (dataBaseUrl CONFIG +:+ "/" +:+ cleanPath)
       {| cache := Some "force-cache" |}
       (with_loading_text "Loading grid geometry..." w)
     = (Return grid, w1) ->
     decorate_features grid = Return g ->
     (forall v, js_get grid "metadata" = Return v -> nullish v) ->
     loadCoreGrid file w = (Throw grid_error, w1)).
Proof.
  split.
  - intros file g w w' Hrun.
    apply loadCoreGrid_Return in Hrun
      as (cleanPath & grid & grid_metadata & _ & _ & _ & Hmd & Hnn).
    by exists grid_metadata.
  - intros file grid g w w1 cleanPath Hpath Hfetch Hdec Hmd.
    unfold loadCoreGrid, updateLoadingText, modify_page.
    unfold mbind at 1. unfold M_bind at 1.
    fold (with_loading_text "Loading grid geometry..." w).
    unfold try_catch, mbind, M_bind, mret, M_ret, lift, throw.
    unfold grid_path in Hpath.
    destruct (js_get file "available_files") as [available_files|];
      [|discriminate].
    destruct (js_get available_files "core_grid") as [gridFile|];
      [|discriminate].
    rewrite Hpath, Hfetch, Hdec.
    apply decorate_features_Return in Hdec
      as (properties & features & features' & -> & _ & -> & _).
    cbn [js_get] in *.
    rewrite lookup_insert_ne by done.
    destruct (Hmd _ eq_refl) as [-> | ->]; reflexivity.
Qed.

(** What a run of [loadVibeScores] that returns has done. *)
Lemma loadVibeScores_Return (data : value) (w w' : world) :
  loadVibeScores w = (Return data, w') ->
  exists (properties : gmap string value) (data_cells : value),
    data = VObj properties /\
    properties !! "cells" = Some data_cells /\
    ~ nullish data_cells /\
    st w'
    = set_insights
        (js_or (default VUndefined (properties !! "insights")) (VArr []))
        (set_pulse
           (js_or (default VUndefined (properties !! "pulse")) VNull)
           (st w)).
Proof.
  intros Hrun.
  unfold loadVibeScores, updateLoadingText, modify_page in Hrun.
  unfold mbind at 1 in Hrun. unfold M_bind at 1 in Hrun.
  unfold try_catch, mbind, M_bind, mret, M_ret, lift, throw, modify in Hrun.
  match type of Hrun with
  | context [fetchWithDecompress ?u ?o ?w0] =>
      destruct (fetchWithDecompress_requests u o w0) as (events & Hw & _);
      destruct (fetchWithDecompress u o w0) as [[data0|] w1]
  end; [|discriminate].
  cbn [snd] in Hw. subst w1.
  destruct (js_get data0 "pulse") as [data_pulse|] eqn:Hp; [|discriminate].
  destruct (js_get data0 "insights") as [data_insights|] eqn:Hi;
    [|discriminate].
  destruct (js_get data0 "cells") as [data_cells|] eqn:Hc; [|discriminate].
  destruct (Object_keys_check data_cells) eqn:Hk; [|discriminate].
  injection Hrun as <- <-.
  destruct data0 as [| | | | | |properties]; simpl in Hp, Hi, Hc;
    try discriminate;
    try (injection Hc as <-; try destruct (String.eqb _ _); discriminate).
  injection Hp as <-. injection Hi as <-. injection Hc as <-.
  exists properties, (default VUndefined (properties !! "cells")).
  split_and!; try done.
  - destruct (properties !! "cells"); [done|discriminate].
  - intros [H | H]; rewrite H in Hk; discriminate.
Qed.

(** X8.  When [loadVibeScores] returns, the document it returns is an
    object with a [cells] member that is not [null]; [state.pulse] is the
    [pulse] of the document, or [null] when the document has none or a
    falsy one; [state.insights] is its [insights], or an empty array; the
    other fields of [state], [state.vibeScores] among them, are as before:
    storing the document is left to the caller. *)
Theorem loadVibeScores_stores_pulse_and_insights :
  forall (data : value) (w w' : world),
    loadVibeScores w = (Return data, w') ->
    exists (properties : gmap string value) (data_cells : value),
      data = VObj properties /\
      properties !! "cells" = Some data_cells /\
      ~ nullish data_cells /\
      pulse (st w')
      = js_or (default VUndefined (properties !! "pulse")) VNull /\
      (pulse (st w') = VNull \/ truthy (pulse (st w')) = true) /\
      insights (st w')
      = js_or (default VUndefined (properties !! "insights")) (VArr []) /\
      truthy (insights (st w')) = true /\
      metadata (st w') = metadata (st w) /\
      coreGrid (st w') = coreGrid (st w) /\
      vibeScores (st w') = vibeScores (st w) /\
      isLoading (st w') = isLoading (st w).
Proof.
  intros data w w' Hrun.
  apply loadVibeScores_Return in Hrun
    as (properties & data_cells & -> & Hcells & Hnn & ->).
  exists properties, data_cells. split_and!; try done.
  - cbn [pulse set_insights set_pulse]. unfold js_or.
    destruct (truthy (default VUndefined (properties !! "pulse"))) eqn:Ht;
      auto.
  - cbn [insights set_insights]. unfold js_or.
    by destruct (truthy (default VUndefined (properties !! "insights")))
      eqn:Ht.
Qed.

(** X9.  After a run of [loadAllData] that returns, [state] holds the three
    documents: a metadata that names the grid file; a grid that is an
    object whose [features] are objects carrying their [id] as
    [properties.h3_index]; vibe scores that are an object with [cells].
    The grid and the scores are truthy, so the guard of [updateStats]
    passes, and [state.isLoading] is false. *)
Theorem loadAllData_success_state :
  forall (w w' : world) (b : bool),
    loadAllData w = (Return b, w') ->
    isLoading (st w') = false /\
    (exists cleanPath, grid_path (metadata (st w')) = Return cleanPath) /\
    (exists (grid : gmap string value) (features : list value),
       coreGrid (st w') = VObj grid /\
       grid !! "features" = Some (VArr features) /\
       Forall (fun feature =>
                 exists (members properties : gmap string value) (id : value),
                   feature = VObj members /\
                   members !! "properties" = Some (VObj properties) /\
                   properties !! "h3_index" = Some id /\
                   js_get feature "id" = Return id)
              features) /\
    (exists (scores : gmap string value) (data_cells : value),
       vibeScores (st w') = VObj scores /\
       scores !! "cells" = Some data_cells /\
       ~ nullish data_cells) /\
    truthy (coreGrid (st w')) = true /\
    truthy (vibeScores (st w')) = true.
Proof.
  intros w w' b Hrun.
  unfold loadAllData, try_catch in Hrun.
  unfold mbind at 1 in Hrun. unfold M_bind at 1 in Hrun.
  unfold modify at 1 in Hrun.
  unfold mbind at 1 in Hrun. unfold M_bind at 1 in Hrun.
  destruct (loadMetadata _) as [[m|e] w1] eqn:Hmeta.
  2: { simpl in Hrun. discriminate. }
  unfold mbind at 1 in Hrun. unfold M_bind at 1 in Hrun.
  unfold modify at 1 in Hrun.
  unfold mbind at 1 in Hrun. unfold M_bind at 1 in Hrun.
  unfold get_state at 1 in Hrun.
  cbn [st metadata set_metadata] in Hrun.
  unfold mbind at 1 in Hrun. unfold M_bind at 1 in Hrun.
  destruct (loadCoreGrid_requests m
              {| st := set_metadata m (st w1); page := page w1;
                 trace := trace w1 |}) as (eg & _ & Hsg & _ & _).
  destruct (loadCoreGrid m _) as [[g|e] w3] eqn:Hcore.
  2: { simpl in Hrun. discriminate. }
  cbn [snd st] in Hsg.
  unfold mbind at 1 in Hrun. unfold M_bind at 1 in Hrun.
  unfold modify at 1 in Hrun.
  unfold mbind at 1 in Hrun. unfold M_bind at 1 in Hrun.
  destruct (loadVibeScores _) as [[v|e] w5] eqn:Hvibe.
  2: { simpl in Hrun. discriminate. }
  unfold mbind, M_bind, modify, mret, M_ret in Hrun.
  injection Hrun as <- <-. cbn [st].
  apply loadVibeScores_Return in Hvibe
    as (scores & data_cells & -> & Hcells & Hnn & ->).
  cbn [st]. rewrite Hsg.
  apply loadCoreGrid_Return in Hcore
    as (cleanPath & grid & grid_metadata & Hpath & _ & Hdec & _ & _).
  apply decorate_features_Return in Hdec
    as (properties & features & features' & -> & Hfs & -> & Hmap).
  apply mapM_Return in Hmap as [Hlen Hall].
  split_and!; try done.
  - by exists cleanPath.
  - eexists _, features'. split; [reflexivity|].
    split; [by rewrite lookup_insert_eq|].
    apply Forall_lookup. intros i feature' Hi.
    destruct (lookup_lt_is_Some_2 features i) as [feature Hf].
    { rewrite <- Hlen. by eapply lookup_lt_Some. }
    destruct (Hall i feature Hf) as (y & Hy & Hd).
    rewrite Hi in Hy. injection Hy as <-.
    apply decorate_Return in Hd
      as (members & props & id & fp & -> & _ & _ & Hp & Hh & Hid & _).
    by exists members, props, id.
  - by exists scores, data_cells.
Qed.

(* ====================================================================== *)
(** * Further properties: the views                                         *)
(* ====================================================================== *)

(** X10.  With both documents loaded and no cell at all, [updateStats]
    divides zero by zero: the two average elements show the formatting of
    [NaN], the other statistics show zero. *)
Theorem updateStats_no_cells :
  forall (scores : vibe_scores) (grid : value) (d : dom)
         (id : string) (el : element),
    truthy grid = true ->
    cells scores = ∅ ->
    d !! id = Some el ->
    exists el' : element,
      updateStats (Some scores) grid d !! id = Some el' /\
      (id = "statAvgVibe" \/ id = "statAvgVibeSide" ->
         textContent el' = toFixed NaN 3) /\
      (id = "statRegions" \/ id = "statRegionsMobile" \/ id = "statEvents" \/
       id = "statNoise" \/ id = "statProgress" ->
         textContent el' = toLocaleString (Fin 0)).
Proof.
  intros scores grid d id el Hgrid Hcells Hd.
  unfold updateStats. rewrite Hgrid. cbv zeta. simpl negb. cbv iota.
  unfold Object_keys, Object_values. rewrite Hcells, map_to_list_empty.
  cbn [fmap list_fmap length scan fold_left totalVibe totalEvents
       totalNoise totalProgress].
  change (js_div 0 (of_nat 0)) with NaN.
  change (of_nat 0) with 0%Q.
  set (d' := set_textContent "statRegionsMobile" _ _).
  assert (Hlast : forall d0 : dom,
    d0 !! id = d' !! id ->
    id <> "lastUpdated" ->
    match generated_at scores with
    | Some date =>
        if negb (String.eqb date "")
        then set_textContent "lastUpdated" (toLocaleTimeString date) d0
        else d0
    | None => d0
    end !! id = d' !! id).
  { intros d0 H0 Hne. destruct (generated_at scores) as [date|];
      [destruct (negb (String.eqb date ""))|]; try done.
    rewrite lookup_set_textContent. by case_decide. }
  split_id id "statRegions";
    [|split_id id "statRegionsMobile";
      [|split_id id "statEvents";
        [|split_id id "statAvgVibe";
          [|split_id id "statAvgVibeSide";
            [|split_id id "statNoise";
              [|split_id id "statProgress"]]]]]];
  try (rewrite (Hlast d' eq_refl) by done; subst d'; dom_lookups;
       rewrite Hd; simpl; eexists; split; [reflexivity|];
       split; intros; repeat match goal with
                             | H : _ \/ _ |- _ => destruct H
                             end; try discriminate; done).
  destruct (generated_at scores) as [date|];
    [destruct (negb (String.eqb date ""))|];
    subst d'; dom_lookups; rewrite Hd; simpl;
    (eexists; split; [reflexivity|]);
    split; intros; repeat match goal with
                          | H : _ \/ _ |- _ => destruct H
                          end; congruence.
Qed.

Lemma dom_set_textContent (id text : string) (d : dom) :
  base.dom (set_textContent id text d) = base.dom d.
Proof.
  unfold set_textContent, getElementById, dom in *.
  destruct (d !! id) as [el|] eqn:E; [|done].
  apply dom_insert_lookup_L. by rewrite E.
Qed.

Lemma dom_set_className (id cls : string) (d : dom) :
  base.dom (set_className id cls d) = base.dom d.
Proof.
  unfold set_className, getElementById, dom in *.
  destruct (d !! id) as [el|] eqn:E; [|done].
  apply dom_insert_lookup_L. by rewrite E.
Qed.

Lemma className_set_textContent (id text : string) (d : dom) (j : string) :
  className <$> set_textContent id text d !! j = className <$> d !! j.
Proof.
  rewrite lookup_set_textContent. case_decide; [|done].
  by destruct (d !! j).
Qed.

(** X11.  The two updates of the panels write into elements that exist:
    neither [updateStats] nor [updateGlobalPulse] adds or removes an
    element of the page, and [updateStats] changes the class of none. *)
Theorem page_updates_keep_elements :
  forall (d : dom),
    (forall (scores : option vibe_scores) (grid : value),
       base.dom (updateStats scores grid d) = base.dom d /\
       forall id : string,
         className <$> updateStats scores grid d !! id
         = className <$> d !! id) /\
    (forall p : option global_pulse,
       base.dom (updateGlobalPulse p d) = base.dom d).
Proof.
  intros d. split.
  - intros [scores|] grid; [|done]. unfold updateStats.
    destruct (negb (truthy grid)); [done|]. cbv zeta.
    destruct (generated_at scores) as [date|];
      [destruct (negb (String.eqb date ""))|];
      split; intros; by rewrite ?dom_set_textContent,
                               ?className_set_textContent.
  - intros [p|]; [|done]. unfold updateGlobalPulse. cbv zeta.
    by repeat first [rewrite dom_set_className | rewrite dom_set_textContent].
Qed.

(** The cases of an id: one of the names, or none of them. *)
Ltac among j names :=
  lazymatch names with
  | [] => idtac
  | ?name :: ?rest => destruct (decide (j = name)) as [->|?]; [|among j rest]
  end.

(** X12.  Running an update of a panel a second time on the same data
    changes nothing more. *)
Theorem page_updates_idempotent :
  forall (d : dom),
    (forall (scores : option vibe_scores) (grid : value),
       updateStats scores grid (updateStats scores grid d)
       = updateStats scores grid d) /\
    (forall p : option global_pulse,
       updateGlobalPulse p (updateGlobalPulse p d) = updateGlobalPulse p d).
Proof.
  intros d. split.
  - intros [scores|] grid; [|done]. unfold updateStats.
    destruct (negb (truthy grid)); [done|]. cbv zeta.
    apply map_eq. intros j.
    destruct (generated_at scores) as [date|];
      [destruct (negb (String.eqb date ""))|];
      among j ["statRegions"; "statEvents"; "statAvgVibe"; "statAvgVibeSide";
               "statNoise"; "statProgress"; "statRegionsMobile";
               "lastUpdated"];
      dom_lookups; by destruct (d !! _).
  - intros [p|]; [|done]. unfold updateGlobalPulse. cbv zeta.
    apply map_eq. intros j.
    among j ["pulseProgress"; "pulseNoise"; "pulseRatio";
             "pulseProgressMobile"; "pulseNoiseMobile"; "pulseRatioMobile"];
      dom_lookups; by destruct (d !! _).
Qed.

(* ====================================================================== *)
(** * Further properties: the map                                           *)
(* ====================================================================== *)

Lemma fold_insert_lookup {A} (f : string -> A) (keys : list string)
    (lookup : gmap string A) (k : string) :
  k ∈ keys ->
  fold_left (fun lookup key => <[key := f key]> lookup) keys lookup !! k
  = Some (f k).
Proof.
  revert lookup. induction keys as [|key keys IH]; intros lookup Hk.
  - by apply elem_of_nil in Hk.
  - cbn [fold_left]. destruct (decide (k ∈ keys)) as [Hin|Hout].
    + by apply IH.
    + apply elem_of_cons in Hk as [-> | Hk]; [|done].
      clear IH. revert lookup.
      induction keys as [|key' keys IH']; intros lookup.
      * cbn [fold_left]. apply lookup_insert_eq.
      * cbn [fold_left]. apply not_elem_of_cons in Hout as [Hne Hout].
        rewrite insert_insert_ne by done. by apply IH'.
Qed.

Lemma fold_insert_lookup_other {A} (f : string -> A) (keys : list string)
    (lookup : gmap string A) (k : string) :
  k ∉ keys ->
  fold_left (fun lookup key => <[key := f key]> lookup) keys lookup !! k
  = lookup !! k.
Proof.
  revert lookup. induction keys as [|key keys IH]; intros lookup Hk; [done|].
  apply not_elem_of_cons in Hk as [Hne Hk].
  cbn [fold_left]. rewrite IH by done. by apply lookup_insert_ne.
Qed.

Lemma elem_of_Object_keys {A} (o : gmap string A) (k : string) :
  k ∈ Object_keys o <-> is_Some (o !! k).
Proof.
  unfold Object_keys. rewrite list_elem_of_fmap. split.
  - intros ([k' v] & -> & Hin). apply elem_of_map_to_list in Hin. by exists v.
  - intros [v Hv]. exists (k, v). split; [done|].
    by apply elem_of_map_to_list.
Qed.

(** X13.  The lookup object that [createVisualizationLookup] builds has
    exactly the keys of [state.vibeScores.cells], and under each key the
    value [getVisualizationValue] gives for it: a cell is never missing
    from the lookup and the lookup has no entry without a cell. *)
Theorem createVisualizationLookup_entries :
  forall (vibeScores : vibe_scores) (mode h3Index : string),
    createVisualizationLookup vibeScores mode !! h3Index
    = (fun _ => getVisualizationValue vibeScores mode h3Index)
        <$> cells vibeScores !! h3Index.
Proof.
  intros vs mode h3. unfold createVisualizationLookup.
  destruct (cells vs !! h3) as [c|] eqn:Hc; cbn [fmap option_fmap option_map].
  - apply (fold_insert_lookup (getVisualizationValue vs mode)).
    apply elem_of_Object_keys. by rewrite Hc.
  - rewrite (fold_insert_lookup_other (getVisualizationValue vs mode)).
    + apply lookup_empty.
    + rewrite elem_of_Object_keys, Hc. by intros [? ?].
Qed.

Lemma Qmin_saturated (x : Q) : (1 <= x)%Q -> Qmin 1 x = 1%Q.
Proof.
  intros H. unfold Qmin, GenericMinMax.gmin.
  destruct (1 ?= x)%Q eqn:E; try reflexivity.
  apply Qgt_alt in E. exfalso. exact (Qlt_not_le _ _ E H).
Qed.

Lemma Qmin_below (x : Q) : (x < 1)%Q -> Qmin 1 x = x.
Proof.
  intros H. unfold Qmin, GenericMinMax.gmin.
  destruct (1 ?= x)%Q eqn:E; try reflexivity.
  - apply Qeq_alt in E. exfalso. rewrite E in H. exact (Qlt_irrefl _ H).
  - apply Qlt_alt in E. exfalso. exact (Qlt_irrefl _ (Qlt_trans _ _ _ E H)).
Qed.

(** X14.  The intensity modes clamp from above only: a [p_int] (in
    'progress' mode) or [n_int] (in 'noise' mode) of 10 or more gives
    exactly 1, a smaller one gives a tenth of it, hence a negative value
    for a negative intensity.  The balanced mode clamps on neither side:
    a [vibe] above 1 gives a value above 1, one below -1 a value below
    0. *)
Theorem getVisualizationValue_clamps_above_only :
  forall (vibeScores : vibe_scores) (h3Index : string) (cellData : cell),
    cells vibeScores !! h3Index = Some cellData ->
    ((10 <= p_int cellData)%Q ->
       getVisualizationValue vibeScores "progress" h3Index = Fin 1) /\
    ((p_int cellData < 10)%Q ->
       getVisualizationValue vibeScores "progress" h3Index
       = Fin (p_int cellData / 10) /\
       ((p_int cellData < 0)%Q -> (p_int cellData / 10 < 0)%Q)) /\
    ((10 <= n_int cellData)%Q ->
       getVisualizationValue vibeScores "noise" h3Index = Fin 1) /\
    ((n_int cellData < 10)%Q ->
       getVisualizationValue vibeScores "noise" h3Index
       = Fin (n_int cellData / 10) /\
       ((n_int cellData < 0)%Q -> (n_int cellData / 10 < 0)%Q)) /\
    (forall mode : string, mode <> "progress" -> mode <> "noise" ->
       getVisualizationValue vibeScores mode h3Index
       = Fin ((vibe cellData + 1) / 2) /\
       ((1 < vibe cellData)%Q -> (1 < (vibe cellData + 1) / 2)%Q) /\
       ((vibe cellData < -1)%Q -> ((vibe cellData + 1) / 2 < 0)%Q)).
Proof.
  intros vs h3 c Hc. unfold getVisualizationValue. rewrite Hc.
  rewrite !js_div_10, js_div_2, !Math_min_Fin. cbn [String.eqb Ascii.eqb].
  split_and!.
  - intros H. simpl. rewrite Qmin_saturated; [done|].
    apply Qle_shift_div_l; lra.
  - intros H. simpl. rewrite Qmin_below.
    + split; [done|]. intros H0. apply Qlt_shift_div_r; lra.
    + apply Qlt_shift_div_r; lra.
  - intros H. simpl. rewrite Qmin_saturated; [done|].
    apply Qle_shift_div_l; lra.
  - intros H. simpl. rewrite Qmin_below.
    + split; [done|]. intros H0. apply Qlt_shift_div_r; lra.
    + apply Qlt_shift_div_r; lra.
  - intros mode H1 H2.
    destruct (String.eqb_spec mode "progress"); [done|].
    destruct (String.eqb_spec mode "noise"); [done|].
    split_and!; [done| |].
    + intros H. apply Qlt_shift_div_l; lra.
    + intros H. apply Qlt_shift_div_r; lra.
Qed.

(** X15.  For every view mode the array of [getColorScheme] is six stops,
    each a position followed by a colour, with positions that ascend
    strictly from 0 to 1; every mode other than 'progress' and 'noise'
    gets the scheme of 'balanced'. *)
Theorem getColorScheme_stops :
  forall mode : string,
    (exists l : list (Q * string),
       stops (getColorScheme mode) = Some l /\
       length l = 6%nat /\
       ascending l.*1 = true /\
       spans_unit l.*1 = true) /\
    (mode <> "progress" -> mode <> "noise" ->
     getColorScheme mode = getColorScheme "balanced").
Proof.
  intros mode. unfold getColorScheme.
  destruct (String.eqb_spec mode "progress") as [->|H1].
  { split; [|done]. eexists. split; [reflexivity|]. by vm_compute. }
  destruct (String.eqb_spec mode "noise") as [->|H2].
  { split; [|done]. eexists. split; [reflexivity|]. by vm_compute. }
  split; [|done]. eexists. split; [reflexivity|]. by vm_compute.
Qed.

Lemma updateActiveButton_lookup (mode : string) (d : dom) (id m : string) :
  (id, m) ∈ view_buttons ->
  updateActiveButton mode d !! id
  = with_class (if String.eqb mode m then activeClass else inactiveClass)
      <$> d !! id.
Proof.
  intros Hin. unfold view_buttons in Hin.
  repeat (apply elem_of_cons in Hin as [[= -> ->] | Hin]);
    [| | |by apply elem_of_nil in Hin];
    unfold updateActiveButton; cbv zeta; by dom_lookups.
Qed.

Lemma updateActiveButton_lookup_mobile
    (mode : string) (d : dom) (id m : string) :
  (id, m) ∈ view_buttons_mobile ->
  updateActiveButton mode d !! id
  = with_class (if String.eqb mode m then activeClassMobile
                else inactiveClassMobile)
      <$> d !! id.
Proof.
  intros Hin. unfold view_buttons_mobile in Hin.
  repeat (apply elem_of_cons in Hin as [[= -> ->] | Hin]);
    [| | |by apply elem_of_nil in Hin];
    unfold updateActiveButton; cbv zeta; by dom_lookups.
Qed.

Lemma updateActiveButton_lookup_other (mode : string) (d : dom) (id : string) :
  id ∉ (view_buttons ++ view_buttons_mobile).*1 ->
  updateActiveButton mode d !! id = d !! id.
Proof.
  intros Hout. cbn in Hout. rewrite !not_elem_of_cons in Hout.
  destruct Hout as (? & ? & ? & ? & ? & ? & _).
  unfold updateActiveButton; cbv zeta; by dom_lookups.
Qed.

(** X16.  [updateActiveButton] gives each view button that is on the page
    the active class when the mode is the button's own and the inactive
    class otherwise, desktop and mobile alike, and touches nothing else.
    So at most one desktop button is active afterwards, for the mode
    asked; a mode that is none of the three leaves every button inactive;
    and a second call with the same mode changes nothing. *)
Theorem updateActiveButton_single_active :
  forall (mode : string) (d : dom),
    (forall id m : string, (id, m) ∈ view_buttons ->
       updateActiveButton mode d !! id
       = with_class (if String.eqb mode m then activeClass
                     else inactiveClass) <$> d !! id) /\
    (forall id m : string, (id, m) ∈ view_buttons_mobile ->
       updateActiveButton mode d !! id
       = with_class (if String.eqb mode m then activeClassMobile
                     else inactiveClassMobile) <$> d !! id) /\
    (forall id : string,
       id ∉ (view_buttons ++ view_buttons_mobile).*1 ->
       updateActiveButton mode d !! id = d !! id) /\
    (forall (id id' m m' : string) (el el' : element),
       (id, m) ∈ view_buttons -> (id', m') ∈ view_buttons ->
       updateActiveButton mode d !! id = Some el ->
       updateActiveButton mode d !! id' = Some el' ->
       className el = activeClass -> className el' = activeClass ->
       id = id' /\ m = mode) /\
    updateActiveButton mode (updateActiveButton mode d)
    = updateActiveButton mode d.
Proof.
  intros mode d. split_and!.
  - apply updateActiveButton_lookup.
  - apply updateActiveButton_lookup_mobile.
  - apply updateActiveButton_lookup_other.
  - intros id id' m m' el el' Hin Hin' Hel Hel' Hc Hc'.
    rewrite (updateActiveButton_lookup mode d id m Hin) in Hel.
    rewrite (updateActiveButton_lookup mode d id' m' Hin') in Hel'.
    destruct (d !! id) as [e|]; [|discriminate].
    destruct (d !! id') as [e'|]; [|discriminate].
    injection Hel as <-. injection Hel' as <-.
    cbn [className with_class] in Hc, Hc'.
    destruct (String.eqb_spec mode m) as [->|]; [|discriminate].
    destruct (String.eqb_spec m m') as [->|]; [|discriminate].
    split; [|done].
    unfold view_buttons in Hin, Hin'.
    repeat (apply elem_of_cons in Hin as [[= -> Hm] | Hin]);
      try (by apply elem_of_nil in Hin);
      repeat (apply elem_of_cons in Hin' as [[= -> Hm'] | Hin']);
      try (by apply elem_of_nil in Hin'); congruence.
  - apply map_eq. intros id. unfold updateActiveButton. cbv zeta.
    among id ["btnBalancedView"; "btnProgressView"; "btnNoiseView";
              "btnBalancedViewMobile"; "btnProgressViewMobile";
              "btnNoiseViewMobile"];
      dom_lookups; by destruct (d !! _).
Qed.

(* ====================================================================== *)
(** * Further properties: the tooltip and the popup                         *)
(* ====================================================================== *)

Lemma length_append (s1 s2 : string) :
  String.length (s1 +:+ s2) = (String.length s1 + String.length s2)%nat.
Proof. induction s1 as [|c s1 IH]; simpl; [done|by rewrite IH]. Qed.

Lemma length_substring (n : nat) (s : string) :
  (n <= String.length s)%nat -> String.length (String.substring 0 n s) = n.
Proof.
  revert s. induction n as [|n IH]; intros s Hn.
  - by destruct s.
  - destruct s as [|c s]; simpl in *; [lia|]. rewrite IH; lia.
Qed.

Lemma prefix_substring (n : nat) (s : string) :
  String.prefix (String.substring 0 n s) s = true.
Proof.
  revert s. induction n as [|n IH]; intros s.
  - by destruct s.
  - destruct s as [|c s]; simpl; [done|].
    destruct (Ascii.ascii_dec c c); [apply IH|congruence].
Qed.

(** X17.  The tooltip shows no headline exactly when the cell has none, an
    empty one, or 'N/A'.  A headline that is shown is at most 80
    characters long: one of up to 80 characters is shown as it is, a
    longer one as its first 77 characters followed by three dots, 80
    characters in all. *)
Theorem truncatedHeadline_at_most_80 :
  forall headline : option string,
    (truncatedHeadline headline = None <->
     headline = None \/ headline = Some "" \/ headline = Some "N/A") /\
    (forall t : string,
       truncatedHeadline headline = Some t ->
       (String.length t <= 80)%nat /\ t <> "" /\ t <> "N/A" /\
       exists h : string,
         headline = Some h /\
         ((String.length h <= 80)%nat -> t = h) /\
         ((80 < String.length h)%nat ->
            t = String.substring 0 77 h +:+ "..." /\
            String.length t = 80%nat /\
            String.prefix (String.substring 0 77 h) h = true)).
Proof.
  intros [h|]; unfold truncatedHeadline.
  2: { split; [split; [by left | done] | intros t [=]]. }
  destruct (String.eqb_spec h "") as [->|Hne].
  { cbn. split; [split; [by right; left | done] | intros t [=]]. }
  destruct (String.eqb_spec h "N/A") as [->|Hna].
  { cbn. split; [split; [by right; right | done] | intros t [=]]. }
  cbn [negb andb]. split.
  { split; [intros [=]|]. intros [[=]|[[=]|[=]]]; congruence. }
  intros t [= <-].
  destruct (Nat.ltb_spec 80 (String.length h)) as [Hlong|Hshort].
  - assert (String.length (String.substring 0 77 h +:+ "...") = 80%nat)
      as Hlen.
    { rewrite length_append, length_substring by lia. reflexivity. }
    split_and!.
    + lia.
    + intros E. rewrite E in Hlen. discriminate.
    + intros E. rewrite E in Hlen. discriminate.
    + exists h. split_and!; [done|lia|].
      intros _. split_and!; [done|done|apply prefix_substring].
  - split_and!; [done|done|done|].
    exists h. split_and!; [done|done|lia].
Qed.

(** X18.  The percentages of the popup never divide by zero and never hand
    [toFixed] anything but a finite number: for a cell without events
    (a total that is zero or negative, or a missing [count]) the result
    is the number 0, otherwise it is the text of counter / total * 100
    with one decimal, a number between 0 and 100 when the counter is
    between 0 and the total. *)
Theorem eventPercent_finite :
  (forall counter totalEvents : Q,
     ((totalEvents <= 0)%Q -> eventPercent counter totalEvents = VNum 0) /\
     ((0 < totalEvents)%Q ->
        eventPercent counter totalEvents
        = VStr (toFixed (Fin (counter / totalEvents * 100)) 1) /\
        ((0 <= counter)%Q -> (counter <= totalEvents)%Q ->
         (0 <= counter / totalEvents * 100)%Q /\
         (counter / totalEvents * 100 <= 100)%Q))) /\
  (forall cellData : cell,
     count cellData = None ->
     noisePercent cellData = VNum 0 /\ progressPercent cellData = VNum 0).
Proof.
  split.
  - intros counter total. unfold eventPercent, js_gt. rewrite js_lt_Fin.
    split.
    + intros H. apply Qltb_ge in H. by rewrite H.
    + intros H. pose proof H as Hb. apply Qltb_lt in Hb. rewrite Hb.
      rewrite js_div_nonzero by (intros E; rewrite E in H; lra).
      split; [reflexivity|]. intros H0 H1.
      assert (0 <= counter / total)%Q by (apply Qle_shift_div_l; lra).
      assert (counter / total <= 1)%Q by (apply Qle_shift_div_r; lra).
      split; lra.
  - intros c Hc. unfold noisePercent, progressPercent. rewrite Hc.
    by cbn.
Qed.

(* ====================================================================== *)
(** * Further properties: the side panel                                    *)
(* ====================================================================== *)

Lemma lookup_classList_add (id c : string) (l : classLists) (j : string) :
  classList_add id c l !! j
  = if decide (id = j) then (fun classes => {[c]} ∪ classes) <$> l !! j
    else l !! j.
Proof.
  unfold classList_add, classLists in *.
  destruct (l !! id) as [classes|] eqn:E.
  - case_decide as Hj.
    + subst j. by rewrite lookup_insert_eq, E.
    + by rewrite lookup_insert_ne.
  - case_decide; [subst; by rewrite E | done].
Qed.

Lemma lookup_classList_remove (id c : string) (l : classLists) (j : string) :
  classList_remove id c l !! j
  = if decide (id = j) then (fun classes => classes ∖ {[c]}) <$> l !! j
    else l !! j.
Proof.
  unfold classList_remove, classLists in *.
  destruct (l !! id) as [classes|] eqn:E.
  - case_decide as Hj.
    + subst j. by rewrite lookup_insert_eq, E.
    + by rewrite lookup_insert_ne.
  - case_decide; [subst; by rewrite E | done].
Qed.

Ltac class_lookups :=
  repeat (first [rewrite lookup_classList_add
                | rewrite lookup_classList_remove];
          case_decide; try discriminate; try congruence).

Lemma closed_panel (l : classLists) :
  let l' := classList_add "panelBackdrop" "hidden"
              (classList_remove "sidePanel" "open" l) in
  ~ has_class "sidePanel" "open" l' /\
  (is_Some (l !! "panelBackdrop") -> has_class "panelBackdrop" "hidden" l') /\
  (forall id : string, id <> "sidePanel" -> id <> "panelBackdrop" ->
     l' !! id = l !! id).
Proof.
  cbv zeta. split_and!.
  - intros (classes & Hl & Hin). revert Hl. class_lookups.
    destruct (l !! "sidePanel") as [old|]; [|discriminate].
    intros [= <-]. apply elem_of_difference in Hin as [_ Hin].
    apply Hin. by apply elem_of_singleton.
  - intros [classes Hl]. exists ({[ "hidden" ]} ∪ classes). split.
    + class_lookups. by rewrite Hl.
    + apply elem_of_union_l. by apply elem_of_singleton.
  - intros id H1 H2. by class_lookups.
Qed.

(** X19.  With the panel on the page, [toggleSidePanel] flips
    [state.sidePanelOpen] and leaves the panel with the class 'open'
    exactly when the flag is then true, whatever the classes were before;
    a toggle that closes hides the backdrop, one that opens shows it below
    768 pixels of width and leaves it alone from 768 on.  [closeSidePanel]
    is the toggle of an open panel, and closing twice is closing once.
    Neither touches another element, and without the panel on the page
    both do nothing. *)
Theorem side_panel_open_class :
  forall l : classLists,
    (l !! "sidePanel" = None ->
     forall (innerWidth : Q) (sidePanelOpen : bool),
       toggleSidePanel innerWidth sidePanelOpen l = (sidePanelOpen, l) /\
       closeSidePanel sidePanelOpen l = (sidePanelOpen, l)) /\
    (is_Some (l !! "sidePanel") ->
     forall (innerWidth : Q) (sidePanelOpen : bool),
       let toggled := toggleSidePanel innerWidth sidePanelOpen l in
       let closed := closeSidePanel sidePanelOpen l in
       toggled.1 = negb sidePanelOpen /\
       (has_class "sidePanel" "open" toggled.2 <-> toggled.1 = true) /\
       (toggled.1 = false -> is_Some (l !! "panelBackdrop") ->
        has_class "panelBackdrop" "hidden" toggled.2) /\
       (toggled.1 = true -> (innerWidth < 768)%Q ->
        ~ has_class "panelBackdrop" "hidden" toggled.2) /\
       (toggled.1 = true -> (768 <= innerWidth)%Q ->
        toggled.2 !! "panelBackdrop" = l !! "panelBackdrop") /\
       (forall id : string, id <> "sidePanel" -> id <> "panelBackdrop" ->
          toggled.2 !! id = l !! id /\ closed.2 !! id = l !! id) /\
       closed = toggleSidePanel innerWidth true l /\
       closed.1 = false /\
       ~ has_class "sidePanel" "open" closed.2 /\
       (is_Some (l !! "panelBackdrop") ->
        has_class "panelBackdrop" "hidden" closed.2) /\
       closeSidePanel closed.1 closed.2 = closed).
Proof.
  clear CONFIG network gunzip JSON_parse toLocaleString toFixed
        toLocaleTimeString.
  intros l. split.
  { intros Hnone w s. unfold toggleSidePanel, closeSidePanel.
    by rewrite Hnone. }
  intros [panel Hpanel] w s. cbv zeta.
  pose proof (closed_panel l) as (Hc1 & Hc2 & Hc3). cbv zeta in Hc1, Hc2, Hc3.
  unfold toggleSidePanel, closeSidePanel. rewrite Hpanel.
  split_and!.
  - by destruct s.
  - destruct s; cbn [negb fst snd].
    + split; [intros H; by apply Hc1 in H | discriminate].
    + split; [done|]. intros _.
      exists ({[ "open" ]} ∪ panel). split.
      * destruct (js_lt _ _); class_lookups; by rewrite Hpanel.
      * apply elem_of_union_l. by apply elem_of_singleton.
  - destruct s; cbn [negb fst snd]; [|discriminate]. intros _. apply Hc2.
  - destruct s; cbn [negb fst snd]; [discriminate|]. intros _ Hw.
    rewrite js_lt_Fin. apply Qltb_lt in Hw. rewrite Hw.
    intros (classes & Hl & Hin). revert Hl. class_lookups.
    destruct (l !! "panelBackdrop") as [old|]; [|discriminate].
    intros [= <-]. apply elem_of_difference in Hin as [_ Hin].
    apply Hin. by apply elem_of_singleton.
  - destruct s; cbn [negb fst snd]; [discriminate|]. intros _ Hw.
    rewrite js_lt_Fin. apply Qltb_ge in Hw. rewrite Hw. by class_lookups.
  - intros id H1 H2. split.
    + destruct s; cbn [negb fst snd]; [by apply Hc3|].
      destruct (js_lt _ _); by class_lookups.
    + cbn [snd]. by apply Hc3.
  - reflexivity.
  - reflexivity.
  - cbn [snd]. apply Hc1.
  - cbn [snd]. apply Hc2.
  - cbn [fst snd].
    assert (is_Some (classList_add "panelBackdrop" "hidden"
                       (classList_remove "sidePanel" "open" l)
                     !! "sidePanel")) as [panel' Hpanel'].
    { class_lookups. by rewrite Hpanel. }
    rewrite Hpanel'. f_equal.
    apply map_eq. intros id.
    class_lookups; destruct (l !! id) as [old|]; try done;
      cbn; f_equal; apply set_eq; intros x;
      rewrite ?elem_of_union, ?elem_of_difference, ?elem_of_singleton;
      tauto.
Qed.

(* ====================================================================== *)
(** * Further properties: the hover handlers                                *)
(* ====================================================================== *)

Lemma lookup_setFeatureState (id : string) (flag : bool)
    (features : gmap string bool) (j : string) :
  setFeatureState id flag features !! j
  = if decide (id = j) then Some flag else features !! j.
Proof.
  unfold setFeatureState. case_decide.
  - subst. apply lookup_insert_eq.
  - by apply lookup_insert_ne.
Qed.

Lemma handle_consistent (vibeScores : vibe_scores) (h : hover)
    (e : pointer_event) :
  hover_consistent vibeScores h ->
  hover_consistent vibeScores (handle vibeScores h e).
Proof.
  intros (Hflag & Htip & Hcell). destruct e as [[|h3Index features]|].
  - done.
  - cbn [handle on_mousemove]. split_and!; cbn.
    + intros id. rewrite lookup_setFeatureState. case_decide; [congruence|].
      destruct (hoveredId h) as [old|] eqn:Hold.
      * rewrite lookup_setFeatureState. case_decide; [discriminate|].
        intros H'. apply Hflag in H'. congruence.
      * intros H'. apply Hflag in H'. congruence.
    + discriminate.
    + intros t. destruct (cells vibeScores !! h3Index) eqn:Hc.
      * intros [= <-]. by rewrite Hc.
      * apply Hcell.
  - cbn [handle on_mouseleave]. split_and!; cbn.
    + intros id. destruct (hoveredId h) as [old|] eqn:Hold.
      * rewrite lookup_setFeatureState. case_decide; [discriminate|].
        intros H'. apply Hflag in H'. congruence.
      * intros H'. apply Hflag in H'. congruence.
    + done.
    + discriminate.
Qed.

(** X20.  Over every sequence of 'mousemove' and 'mouseleave' events, from
    a map in which only the hovered feature (if any) is flagged, the hover
    handlers keep at most one feature flagged, the one the closure
    variable [hoveredId] names; they keep a tooltip only while a feature
    is hovered, and only for a cell that has data.  After a 'mouseleave'
    no feature is flagged and there is no tooltip. *)
Theorem hover_handlers_consistent :
  forall (vibeScores : vibe_scores) (events : list pointer_event) (h : hover),
    hover_consistent vibeScores h ->
    hover_consistent vibeScores (fold_left (handle vibeScores) events h) /\
    (forall id id' : string,
       featureState (fold_left (handle vibeScores) events h) !! id
       = Some true ->
       featureState (fold_left (handle vibeScores) events h) !! id'
       = Some true ->
       id = id') /\
    let left := handle vibeScores
                  (fold_left (handle vibeScores) events h) Mouseleave in
    hoveredId left = None /\ hoverTooltip left = None /\ cursor left = "" /\
    forall id : string, featureState left !! id <> Some true.
Proof.
  intros vs events h Hh.
  assert (hover_consistent vs (fold_left (handle vs) events h)) as Hrun.
  { revert h Hh. induction events as [|e events IH]; intros h Hh; [done|].
    cbn [fold_left]. apply IH. by apply handle_consistent. }
  split; [done|]. split.
  - destruct Hrun as (Hflag & _ & _). intros id id' H1 H2.
    apply Hflag in H1. apply Hflag in H2. congruence.
  - cbv zeta.
    pose proof (handle_consistent vs _ Mouseleave Hrun) as (Hflag & _ & _).
    split_and!; try reflexivity.
    intros id H'. apply Hflag in H'. discriminate.
Qed.

(* ====================================================================== *)
(** * Further properties: a failed load of the vibe scores                  *)
(* ====================================================================== *)

(** X21.  Whatever makes [loadVibeScores] throw, what it throws is the one
    Error 'Could not load vibe scores. Data may be processing.', and the
    metadata, the grid, the vibe scores and the loading flag of [state]
    are as before.  The pulse and the insights need not be: for a document
    that is an object without [cells], they are overwritten with those of
    the document before the load fails. *)
Theorem loadVibeScores_failure :
  (forall (w : world) (e : exn),
     (loadVibeScores w).1 = Throw e ->
     e = scores_error /\
     metadata (st (loadVibeScores w).2) = metadata (st w) /\
     coreGrid (st (loadVibeScores w).2) = coreGrid (st w) /\
     vibeScores (st (loadVibeScores w).2) = vibeScores (st w) /\
     isLoading (st (loadVibeScores w).2) = isLoading (st w)) /\
  (forall (w w1 : world) (properties : gmap string value),
     fetchWithDecompress (dataBaseUrl CONFIG +:+ "/vibe_scores.json")
       {| cache := Some "no-cache" |}
       (with_loading_text "Loading vibe scores..." w)
     = (Return (VObj properties), w1) ->
     nullish (default VUndefined (properties !! "cells")) ->
     (loadVibeScores w).1 = Throw scores_error /\
     pulse (st (loadVibeScores w).2)
     = js_or (default VUndefined (properties !! "pulse")) VNull /\
     insights (st (loadVibeScores w).2)
     = js_or (default VUndefined (properties !! "insights")) (VArr [])).
Proof.
  split.
  - intros w e.
    unfold loadVibeScores, updateLoadingText, modify_page.
    unfold mbind at 1. unfold M_bind at 1.
    unfold try_catch, mbind, M_bind, mret, M_ret, lift, throw, modify.
    match goal with
    | |- context [fetchWithDecompress ?u ?o ?w0] =>
        destruct (fetchWithDecompress_requests u o w0) as (events & Hw & _);
        destruct (fetchWithDecompress u o w0) as [[data0|e0] w1]
    end; cbn [snd] in Hw; subst w1.
    + destruct (js_get data0 "pulse") as [data_pulse|];
        [|by intros [= <-]].
      destruct (js_get data0 "insights") as [data_insights|];
        [|by intros [= <-]].
      destruct (js_get data0 "cells") as [data_cells|];
        [|by intros [= <-]].
      destruct (Object_keys_check data_cells); [discriminate|].
      by intros [= <-].
    + by intros [= <-].
  - intros w w1 properties Hrun Hnull.
    unfold loadVibeScores, updateLoadingText, modify_page.
    unfold mbind at 1. unfold M_bind at 1.
    unfold try_catch, mbind, M_bind, mret, M_ret, lift, throw, modify.
    unfold with_loading_text in Hrun. rewrite Hrun.
    cbn [js_get].
    destruct Hnull as [-> | ->]; done.
Qed.

End Client.

(* ====================================================================== *)
(** * The properties at concrete inputs                                     *)
(* ====================================================================== *)

Lemma getVisualizationValue_range_witness :
  getVisualizationValue sample_scores "noise" "832830fffffffff"
  = Fin (Qmin 1 (25 / 10)) /\
  getVisualizationValue sample_scores "progress" "8328a1fffffffff" = Fin 0.
Proof.
  split.
  - apply (proj1 getVisualizationValue_range sample_scores "noise"
             "832830fffffffff" sample_cell); try reflexivity;
      vm_compute; discriminate.
  - apply (proj2 getVisualizationValue_range). reflexivity.
Defined.

Lemma fetchWithDecompress_gzip_detection_witness :
  (fetchWithDecompress sample_config sample_network sample_gunzip
     sample_JSON_parse "/data/metadata.json" {| cache := None |}
     sample_world).1
  = Return sample_metadata.
Proof.
  destruct (fetchWithDecompress_gzip_detection sample_config sample_network
              sample_gunzip sample_JSON_parse "/data/metadata.json"
              {| cache := None |} sample_world
              {| ok := true; status := 200; body := [[x1f; x8b]; [x6d]] |}
              [x1f; x8b] [[x6d]] eq_refl eq_refl eq_refl)
    as (events & _ & _ & Hmagic & _).
  destruct (Hmagic (conj eq_refl eq_refl)) as (_ & Htext & _).
  exact (proj2 (Htext [x6d] eq_refl)).
Defined.

Lemma fetchWithDecompress_fallback_witness :
  (fetchWithDecompress sample_config sample_network sample_gunzip
     sample_JSON_parse "/data/h3_grid_res3.json"
     {| cache := Some "force-cache" |} sample_world).1
  = Return sample_grid.
Proof.
  destruct (proj1 (fetchWithDecompress_fallback sample_config sample_network
                     sample_gunzip sample_JSON_parse)
              "/data/h3_grid_res3.json" {| cache := Some "force-cache" |}
              sample_world {| ok := false; status := 404; body := [] |}
              eq_refl eq_refl eq_refl)
    as (_ & Hok & _).
  exact (Hok {| ok := true; status := 200; body := [[x67]] |}
             eq_refl eq_refl).
Defined.

Lemma fetchWithDecompress_empty_or_short_witness :
  (fetchWithDecompress sample_config sample_network sample_gunzip
     sample_JSON_parse "/data/vibe_scores.json"
     {| cache := Some "no-cache" |} sample_world).1
  = Return VNull.
Proof.
  destruct (fetchWithDecompress_empty_or_short sample_config sample_network
              sample_gunzip sample_JSON_parse "/data/vibe_scores.json"
              {| cache := Some "no-cache" |} sample_world
              {| ok := true; status := 200; body := [] |}
              eq_refl eq_refl)
    as [Hempty _].
  by rewrite (Hempty eq_refl).
Defined.

Lemma loadCoreGrid_h3_index_witness :
  exists (grid' : value) (features' : list value),
    (loadCoreGrid sample_config sample_network sample_gunzip
       sample_JSON_parse sample_metadata sample_world).1 = Return grid' /\
    js_get grid' "features" = Return (VArr features').
Proof.
  destruct (loadCoreGrid sample_config sample_network sample_gunzip
              sample_JSON_parse sample_metadata sample_world)
    as [[grid'|e] w'] eqn:Hrun.
  - destruct (loadCoreGrid_h3_index _ _ _ _ _ _ _ _ Hrun)
      as (url & w0 & w1 & grid & features & features' & _ & _ & -> & _).
    exists (VObj (<["features" := VArr features']> grid)), features'.
    split; [reflexivity|].
    simpl. by rewrite lookup_insert_eq.
  - vm_compute in Hrun. discriminate.
Defined.

Lemma updateGlobalPulse_ticker_witness :
  exists el' : element,
    updateGlobalPulse sample_format sample_toFixed (Some sample_pulse)
      sample_page !! "pulseRatio" = Some el' /\
    className el' = "text-lg font-bold text-red-400".
Proof.
  destruct (proj1 (proj2 (updateGlobalPulse_ticker sample_format
                            sample_toFixed))
              sample_pulse sample_page "pulseRatio"
              {| textContent := "--"; className := "" |} eq_refl)
    as (el' & Hel & _ & _ & Hratio & _).
  exists el'. split; [exact Hel|].
  exact (proj2 (Hratio eq_refl)).
Defined.

Lemma sample_cells_nonempty : cells sample_scores <> ∅.
Proof. apply insert_non_empty. Qed.

Lemma updateStats_displays_sums_witness :
  exists (events : Q) (el' : element),
    (events == 12)%Q /\
    updateStats sample_format sample_toFixed sample_time
      (Some sample_scores) sample_grid sample_page !! "statEvents"
    = Some el' /\
    textContent el' = sample_format (Fin events).
Proof.
  destruct (proj2 (updateStats_displays_sums sample_format sample_toFixed
                     sample_time)
              sample_scores sample_grid sample_page
              eq_refl sample_cells_nonempty)
    as (events & avg & noise & progress & Hevents & _ & _ & _ & Hpage).
  destruct (Hpage "statEvents" {| textContent := "--"; className := "stat" |}
              eq_refl)
    as (el' & Hel & _ & Htext & _).
  exists events, el'. split; [|split; [exact Hel|exact (Htext eq_refl)]].
  rewrite Hevents. vm_compute. reflexivity.
Defined.

(** C5, as it is stated, at a state the client reaches when the grid failed
    to load and a refresh then loads the vibe scores: the scores are loaded
    and have a cell, the core grid is [null].  [updateStats] leaves the
    page as it is; the events element keeps its text, which is not the sum
    of the counts. *)
Lemma updateStats_without_core_grid :
  cells sample_scores <> ∅ /\
  updateStats sample_format sample_toFixed sample_time
    (Some sample_scores) VNull sample_page = sample_page /\
  textContent <$> (updateStats sample_format sample_toFixed sample_time
                     (Some sample_scores) VNull sample_page !! "statEvents")
  = Some "--" /\
  sample_format
    (Fin (totalEvents (scan (Object_values (cells sample_scores)))))
  = "12/1".
Proof.
  split; [exact sample_cells_nonempty|].
  split; [reflexivity|].
  split; [reflexivity|].
  vm_compute. reflexivity.
Qed.

(** ** Runs on the samples *)

Example js_div_by_zero :
  js_div 0 0 = NaN /\ js_div 3 0 = PosInf /\ js_div (-3) 0 = NegInf.
Proof. repeat split. Qed.

Example getVibeColor_of_NaN :
  getVibeColor NaN = "#22c55e" /\ getVibeLabel NaN = "Thriving".
Proof. split; reflexivity. Qed.

Example getVibeColor_at_thresholds :
  getVibeColor (Fin (-0.5)) = "#f97316" /\
  getVibeColor (Fin 0.0) = "#eab308" /\
  getVibeColor (Fin 0.3) = "#84cc16" /\
  getVibeColor (Fin 0.6) = "#22c55e".
Proof. repeat split. Qed.

Example cleanPath_of_sample :
  cleanPath_of (VStr "core/h3_grid_res3.json") = Return "h3_grid_res3.json" /\
  cleanPath_of (VStr "current/core/a.json") = Return "core/a.json" /\
  cleanPath_of VUndefined = Throw TypeError.
Proof. repeat split. Qed.

Example decorate_sample :
  decorate sample_feature
  = Return (VObj {[ "id" := VStr "832830fffffffff";
                    "properties" :=
                      VObj {[ "resolution" := VNum 3;
                              "h3_index" := VStr "832830fffffffff" ]} ]}).
Proof. vm_compute. reflexivity. Qed.

(** The vibe scores of the sample network have an empty body: the third
    load fails on [null], after the requests for the metadata and for the
    grid (the second of which fell back to the uncompressed file). *)
Example loadAllData_sample :
  let run := loadAllData sample_config sample_network sample_gunzip
               sample_JSON_parse sample_world in
  run.1 = Throw scores_error /\
  requests (trace run.2)
  = ["/data/metadata.json.gz"; "/data/h3_grid_res3.json.gz";
     "/data/h3_grid_res3.json"; "/data/vibe_scores.json.gz"] /\
  isLoading (st run.2) = false /\
  metadata (st run.2) = sample_metadata.
Proof. vm_compute. repeat split. Qed.

(** Without a cell the average is [0 / 0]. *)
Example updateStats_no_cell :
  textContent <$>
    (updateStats sample_format sample_toFixed sample_time
       (Some {| cells := ∅; generated_at := None |}) sample_grid
       {[ "statAvgVibe" := {| textContent := "--"; className := "" |} ]}
     !! "statAvgVibe")
  = Some "NaN".
Proof. vm_compute. reflexivity. Qed.

(** With the second network the three loads run one after the other and
    the run returns true. *)
Lemma loadAllData_sequential_witness :
  (loadAllData sample_config sample_network_scores sample_gunzip
     sample_JSON_parse_scores sample_world).1
  = Return true /\
  isLoading
    (st (loadAllData sample_config sample_network_scores sample_gunzip
           sample_JSON_parse_scores sample_world).2)
  = false.
Proof.
  destruct (loadAllData_sequential sample_config sample_network_scores
              sample_gunzip sample_JSON_parse_scores sample_world)
    as (Hloading & em & eg & ev & _ & _ & _ & _ & _ & _ & _ & _ & Hmeta).
  split; [|exact Hloading].
  destruct (Hmeta sample_metadata) as (_ & _ & _ & _ & Hgrid);
    [vm_compute; reflexivity|].
  destruct (Hgrid sample_grid_decorated) as (_ & _ & _ & _ & Hscores);
    [vm_compute; reflexivity|].
  destruct (Hscores (VObj sample_scores_properties)) as [Hreturn _];
    [vm_compute; reflexivity|].
  exact Hreturn.
Defined.

(** A request that the network cannot answer. *)
Lemma fetchWithDecompress_network_failure_witness :
  (fetchWithDecompress sample_config sample_network sample_gunzip
     sample_JSON_parse "/data/missing.json" {| cache := None |}
     sample_world).1
  = Throw TypeError.
Proof.
  rewrite (proj1 (fetchWithDecompress_network_failure sample_config
                    sample_network sample_gunzip sample_JSON_parse)
             "/data/missing.json" {| cache := None |} sample_world eq_refl).
  reflexivity.
Defined.

(** The metadata in two chunks and in one. *)
Lemma fetchWithDecompress_chunking_witness :
  (fetchWithDecompress sample_config sample_network_rechunked sample_gunzip
     sample_JSON_parse "/data/metadata.json" {| cache := None |}
     sample_world).1
  = (fetchWithDecompress sample_config sample_network_rechunked sample_gunzip
       sample_JSON_parse "/data/metadata.json" {| cache := None |}
       sample_world_later).1.
Proof.
  exact (proj1 (fetchWithDecompress_chunking sample_config
                  sample_network_rechunked sample_gunzip sample_JSON_parse
                  "/data/metadata.json" {| cache := None |}
                  sample_world sample_world_later
                  {| ok := true; status := 200; body := [[x1f; x8b]; [x6d]] |}
                  {| ok := true; status := 200; body := [[x1f; x8b; x6d]] |}
                  [x1f; x8b] [x1f; x8b; x6d] [[x6d]] []
                  eq_refl eq_refl eq_refl eq_refl eq_refl eq_refl
                  (le_n 2) (le_S 2 2 (le_n 2)) eq_refl)).
Defined.

(** The decorated sample feature is decorated into itself. *)
Lemma decorate_idempotent_witness :
  decorate
    (VObj {[ "id" := VStr "832830fffffffff";
             "properties" :=
               VObj {[ "resolution" := VNum 3;
                       "h3_index" := VStr "832830fffffffff" ]} ]})
  = Return
      (VObj {[ "id" := VStr "832830fffffffff";
               "properties" :=
                 VObj {[ "resolution" := VNum 3;
                         "h3_index" := VStr "832830fffffffff" ]} ]}).
Proof.
  apply (decorate_idempotent sample_feature). vm_compute. reflexivity.
Defined.

(** The grid of the sample network has its metadata; the bare grid makes
    the load fail. *)
Lemma loadCoreGrid_needs_grid_metadata_witness :
  (exists g grid_metadata : value,
     (loadCoreGrid sample_config sample_network sample_gunzip
        sample_JSON_parse sample_metadata sample_world).1 = Return g /\
     js_get g "metadata" = Return grid_metadata /\
     ~ nullish grid_metadata) /\
  (loadCoreGrid sample_config sample_network sample_gunzip
     sample_JSON_parse_partial sample_metadata sample_world).1
  = Throw grid_error.
Proof.
  split.
  - destruct (loadCoreGrid sample_config sample_network sample_gunzip
                sample_JSON_parse sample_metadata sample_world)
      as [[g|e] w'] eqn:Hrun.
    + destruct (proj1 (loadCoreGrid_needs_grid_metadata sample_config
                         sample_network sample_gunzip sample_JSON_parse)
                  _ _ _ _ Hrun) as (grid_metadata & Hg & Hn).
      by exists g, grid_metadata.
    + vm_compute in Hrun. discriminate.
  - rewrite (proj2 (loadCoreGrid_needs_grid_metadata sample_config
                      sample_network sample_gunzip sample_JSON_parse_partial)
               sample_metadata sample_grid_bare
               (default VNull
                  (match decorate_features sample_grid_bare with
                   | Return g => Some g
                   | Throw _ => None
                   end))
               sample_world
               (fetchWithDecompress sample_config sample_network
                  sample_gunzip sample_JSON_parse_partial
                  "/data/h3_grid_res3.json" {| cache := Some "force-cache" |}
                  (with_loading_text "Loading grid geometry..."
                     sample_world)).2
               "h3_grid_res3.json").
    + reflexivity.
    + vm_compute. reflexivity.
    + vm_compute. reflexivity.
    + vm_compute. reflexivity.
    + intros v Hv. vm_compute in Hv. injection Hv as <-. by right.
Defined.

(** The vibe scores of the second network load. *)
Lemma loadVibeScores_stores_pulse_and_insights_witness :
  insights
    (st (loadVibeScores sample_config sample_network_scores sample_gunzip
           sample_JSON_parse_scores sample_world).2)
  = VArr [] /\
  vibeScores
    (st (loadVibeScores sample_config sample_network_scores sample_gunzip
           sample_JSON_parse_scores sample_world).2)
  = VNull.
Proof.
  destruct (loadVibeScores_stores_pulse_and_insights sample_config
              sample_network_scores sample_gunzip sample_JSON_parse_scores
              (VObj sample_scores_properties) sample_world
              (loadVibeScores sample_config sample_network_scores
                 sample_gunzip sample_JSON_parse_scores sample_world).2)
    as (properties & data_cells & Hdata & _ & _ & _ & _ & Hi & _ & _ & _
        & Hv & _).
  - vm_compute. reflexivity.
  - injection Hdata as <-. split; [|exact Hv].
    rewrite Hi. vm_compute. reflexivity.
Defined.

(** With the second network the three loads succeed. *)
Lemma loadAllData_success_state_witness :
  isLoading
    (st (loadAllData sample_config sample_network_scores sample_gunzip
           sample_JSON_parse_scores sample_world).2)
  = false /\
  truthy
    (vibeScores
       (st (loadAllData sample_config sample_network_scores sample_gunzip
              sample_JSON_parse_scores sample_world).2))
  = true.
Proof.
  destruct (loadAllData_success_state sample_config sample_network_scores
              sample_gunzip sample_JSON_parse_scores sample_world
              (loadAllData sample_config sample_network_scores sample_gunzip
                 sample_JSON_parse_scores sample_world).2
              true)
    as (Hl & _ & _ & _ & _ & Hv).
  - vm_compute. reflexivity.
  - by split.
Defined.

(** Scores without a cell on a page that has the average. *)
Lemma updateStats_no_cells_witness :
  exists el' : element,
    updateStats sample_format sample_toFixed sample_time
      (Some {| cells := ∅; generated_at := None |}) sample_grid
      {[ "statAvgVibe" := {| textContent := "--"; className := "" |} ]}
    !! "statAvgVibe" = Some el' /\
    textContent el' = sample_toFixed NaN 3.
Proof.
  assert (({[ "statAvgVibe" := {| textContent := "--"; className := "" |} ]}
             : dom) !! "statAvgVibe"
          = Some {| textContent := "--"; className := "" |}) as Hpage
    by (vm_compute; reflexivity).
  destruct (updateStats_no_cells sample_format sample_toFixed sample_time
              {| cells := ∅; generated_at := None |} sample_grid _ _ _
              eq_refl eq_refl Hpage)
    as (el' & Hel & Havg & _).
  exists el'. split; [exact Hel|]. apply Havg. by left.
Defined.

(** The sample cell has a noise intensity of 25. *)
Lemma getVisualizationValue_clamps_above_only_witness :
  getVisualizationValue sample_scores "noise" "832830fffffffff" = Fin 1.
Proof.
  destruct (getVisualizationValue_clamps_above_only sample_scores
              "832830fffffffff" sample_cell eq_refl)
    as (_ & _ & Hnoise & _).
  apply Hnoise. by vm_compute.
Defined.

(** The noise view on the sample buttons. *)
Lemma updateActiveButton_single_active_witness :
  updateActiveButton "noise" sample_buttons !! "btnNoiseView"
  = Some {| textContent := "Noise"; className := activeClass |} /\
  updateActiveButton "noise" sample_buttons !! "btnBalancedView"
  = Some {| textContent := "Balanced"; className := inactiveClass |}.
Proof.
  destruct (updateActiveButton_single_active "noise" sample_buttons)
    as (Hdesktop & _).
  split.
  - rewrite (Hdesktop "btnNoiseView" "noise") by repeat constructor.
    reflexivity.
  - rewrite (Hdesktop "btnBalancedView" "balanced") by repeat constructor.
    reflexivity.
Defined.

(** The sample headline is cut to 80 characters. *)
Lemma truncatedHeadline_at_most_80_witness :
  truncatedHeadline (Some sample_headline)
  = Some (String.substring 0 77 sample_headline +:+ "...") /\
  String.length (String.substring 0 77 sample_headline +:+ "...") = 80%nat.
Proof.
  split; [reflexivity|].
  destruct (proj2 (truncatedHeadline_at_most_80 (Some sample_headline))
              (String.substring 0 77 sample_headline +:+ "...") eq_refl)
    as (_ & _ & _ & h & Hh & _ & Hlong).
  injection Hh as <-. apply Hlong. vm_compute. lia.
Defined.

(** Three events of noise among twelve. *)
Lemma eventPercent_finite_witness :
  eventPercent sample_toFixed 3 12
  = VStr (sample_toFixed (Fin (3 / 12 * 100)) 1) /\
  (0 <= 3 / 12 * 100)%Q /\ (3 / 12 * 100 <= 100)%Q.
Proof.
  destruct (proj2 (proj1 (eventPercent_finite sample_toFixed) 3%Q 12%Q)
              eq_refl)
    as (Htext & Hrange).
  split; [exact Htext|]. apply Hrange; by vm_compute.
Defined.

(** Opening the closed sample panel on a narrow screen. *)
Lemma side_panel_open_class_witness :
  has_class "sidePanel" "open"
    (toggleSidePanel 400 false sample_classLists).2 /\
  ~ has_class "panelBackdrop" "hidden"
      (toggleSidePanel 400 false sample_classLists).2.
Proof.
  assert (is_Some (sample_classLists !! "sidePanel")) as Hpanel
    by (eexists; vm_compute; reflexivity).
  destruct (proj2 (side_panel_open_class sample_classLists) Hpanel
              400%Q false)
    as (Hflag & Hopen & _ & Hnarrow & _).
  split.
  - apply Hopen. exact Hflag.
  - apply Hnarrow; [exact Hflag | reflexivity].
Defined.

(** The pointer enters a cell, moves to a feature without data and
    leaves. *)
Lemma hover_handlers_consistent_witness :
  hover_consistent sample_scores
    (fold_left (handle sample_scores)
       [Mousemove ["832830fffffffff"]; Mousemove ["832834fffffffff"]]
       sample_hover).
Proof.
  apply (hover_handlers_consistent sample_scores
           [Mousemove ["832830fffffffff"]; Mousemove ["832834fffffffff"]]
           sample_hover).
  split_and!.
  - intros id. cbn. rewrite lookup_empty. discriminate.
  - reflexivity.
  - discriminate.
Defined.

(** Vibe scores that are a pulse without cells. *)
Lemma loadVibeScores_failure_witness :
  (loadVibeScores sample_config sample_network_scores sample_gunzip
     sample_JSON_parse_partial sample_world).1
  = Throw scores_error /\
  pulse
    (st (loadVibeScores sample_config sample_network_scores sample_gunzip
           sample_JSON_parse_partial sample_world).2)
  = VObj {[ "humanity_ratio" := VNum 0.4 ]}.
Proof.
  destruct (proj2 (loadVibeScores_failure sample_config sample_network_scores
                     sample_gunzip sample_JSON_parse_partial)
              sample_world
              (fetchWithDecompress sample_config sample_network_scores
                 sample_gunzip sample_JSON_parse_partial
                 "/data/vibe_scores.json" {| cache := Some "no-cache" |}
                 (with_loading_text "Loading vibe scores..." sample_world)).2
              sample_pulse_properties)
    as (Hthrow & Hpulse & _).
  - vm_compute. reflexivity.
  - by right.
  - split; [exact Hthrow|]. rewrite Hpulse. vm_compute. reflexivity.
Defined.

(** The sample grid is an object with an array of features. *)
Lemma decorate_features_returns_iff_witness :
  exists grid' : value, decorate_features sample_grid = Return grid'.
Proof.
  apply (proj1 (decorate_features_returns_iff sample_grid)).
  eexists _, [sample_feature]. split; [reflexivity|]. split.
  - vm_compute. reflexivity.
  - repeat constructor; discriminate.
Defined.

(** A path without a prefix is kept. *)
Lemma cleanPath_of_prefixes_witness :
  cleanPath_of (VStr "h3_grid_res3.json") = Return "h3_grid_res3.json".
Proof.
  destruct cleanPath_of_prefixes as (_ & _ & _ & Hkeep & _).
  apply Hkeep; reflexivity.
Defined.
